(** * Pixiecore command line: configuration resolution and validation

    A shallow embedding of [pixiecore/cli/cli.go]: the flag declarations
    ([serverConfigFlags]), the fatal-exit helpers ([fatalf], [todo],
    [mustFile]), the resolver [serverFromFlags] and the entry point [CLI].

    Go values are modelled as the program has them: a [net.IP] is a byte
    slice that may be nil, a Go map is a reference into a store of map
    objects, a [[]byte] is a slice header over a backing array in the
    store, and [os.Exit] ends the run with its status. *)

From stdpp Require Import base option list gmap strings.
From Stdlib Require Import ZArith Lia Ascii.

Local Open Scope Z_scope.
Local Open Scope string_scope.

(** ** Process state *)

Abbreviation loc := positive.
Abbreviation bytes := (list Z).
Abbreviation error := string.

(** A [[]byte] value: pointer into a backing array, and length. The nil
    slice has no array. *)
Record slice := Slice { s_arr : option loc; s_off : nat; s_len : nat }.

Definition nil_slice : slice := Slice None 0 0.

#[global] Instance slice_eq_dec : EqDecision slice.
Proof. solve_decision. Defined.

(** Modelled from the spec: [pixiecore.Firmware] is declared in the
    [pixiecore] package, outside this file; an integer-typed enumeration
    with one member per boot client class (legacy BIOS/UNDI, 32-bit UEFI,
    64-bit UEFI). *)
Abbreviation Firmware := Z.
Definition FirmwareX86PC : Firmware := 0.
Definition FirmwareEFI32 : Firmware := 1.
Definition FirmwareEFI64 : Firmware := 2.

(** What [ioutil.ReadFile] finds at a path. A path that is not in the file
    system reads as an error as well. *)
Inductive file :=
| Readable (contents : bytes)
| Unreadable (err : error).

(** State of the [viper] configuration singleton. *)
Record viperState := Viper { v_envPrefix : string; v_automaticEnv : bool }.

(** One [fmt.Printf] call: the format and its arguments. *)
Record printed := Printed { p_format : string; p_args : list string }.

Record world := World {
  w_env : gmap string string;
  w_files : gmap string file;
  w_arrays : gmap loc bytes;
  w_maps : gmap loc (gmap Z slice);
  w_Ipxe : option loc;
  w_viper : viperState;
  w_stdout : list printed
}.

(** The bytes a slice denotes in a store of backing arrays. *)
Definition slice_bytes (arrays : gmap loc bytes) (s : slice) : bytes :=
  match s_arr s with
  | None => []
  | Some a => take (s_len s) (drop (s_off s) (default [] (arrays !! a)))
  end.

(** ** Runs that may end in [os.Exit] *)

Inductive outcome (A : Type) :=
| Ret (a : A)
| Exit (code : Z)
| Panic (msg : string).
Arguments Ret {A} a.
Arguments Exit {A} code.
Arguments Panic {A} msg.

Definition proc (A : Type) : Type := world → outcome A * world.

#[global] Instance proc_ret : MRet proc := λ A a w, (Ret a, w).
#[global] Instance proc_bind : MBind proc := λ A B f m w,
  match m w with
  | (Ret a, w1) => f a w1
  | (Exit c, w1) => (Exit c, w1)
  | (Panic msg, w1) => (Panic msg, w1)
  end.

Definition os_Exit {A} (code : Z) : proc A := λ w, (Exit code, w).

Definition panic {A} (msg : string) : proc A := λ w, (Panic msg, w).

Definition with_stdout (w : world) (out : list printed) : world :=
  World (w_env w) (w_files w) (w_arrays w) (w_maps w) (w_Ipxe w) (w_viper w) out.

Definition with_viper (w : world) (v : viperState) : world :=
  World (w_env w) (w_files w) (w_arrays w) (w_maps w) (w_Ipxe w) v (w_stdout w).

Definition with_arrays (w : world) (arrays : gmap loc bytes) : world :=
  World (w_env w) (w_files w) arrays (w_maps w) (w_Ipxe w) (w_viper w) (w_stdout w).

Definition with_maps (w : world) (maps : gmap loc (gmap Z slice)) : world :=
  World (w_env w) (w_files w) (w_arrays w) maps (w_Ipxe w) (w_viper w) (w_stdout w).

Definition fmt_Printf (format : string) (args : list string) : proc () :=
  λ w, (Ret (), with_stdout w (w_stdout w ++ [Printed format args])).

(** [make(map[K]V)] or a map literal: a new, empty map object. *)
Definition new_map : proc loc :=
  λ w, let l := fresh (dom (w_maps w)) in
       (Ret l, with_maps w (<[l := ∅]> (w_maps w))).

(** [m[k] = v]; assignment to an entry of the nil map panics. *)
Definition map_assign (m : option loc) (k : Z) (v : slice) : proc () :=
  match m with
  | None => panic "assignment to entry in nil map"
  | Some l => λ w, (Ret (), with_maps w (alter (<[k := v]>) l (w_maps w)))
  end.


(** The entries a [range] over a map visits; none for the nil map. *)
Definition map_range (m : option loc) : proc (list (Z * slice)) :=
  λ w, (Ret (match m with
             | None => []
             | Some l => map_to_list (default ∅ (w_maps w !! l))
             end), w).

Fixpoint forM_ {A} (l : list A) (body : A → proc ()) : proc () :=
  match l with
  | [] => mret ()
  | x :: l' => body x ;; forM_ l' body
  end.

(** The package variable [Ipxe]. *)
Definition read_Ipxe : proc (option loc) := λ w, (Ret (w_Ipxe w), w).

(** [ioutil.ReadFile]: the whole file in a new backing array, or an error. *)
Definition ioutil_ReadFile (path : string) : proc (slice * option error) :=
  λ w, match w_files w !! path with
       | Some (Readable contents) =>
           let a := fresh (dom (w_arrays w)) in
           (Ret (Slice (Some a) 0 (length contents), None),
            with_arrays w (<[a := contents]> (w_arrays w)))
       | Some (Unreadable err) => (Ret (nil_slice, Some err), w)
       | None => (Ret (nil_slice, Some ("open " ++ path ++ ": no such file or directory")), w)
       end.

(** The Go string ["\n"]. *)
Definition newline : string := String (Ascii.ascii_of_nat 10) "".

Definition fatalf {A} (msg : string) (args : list string) : proc A :=
  fmt_Printf (msg ++ newline) args ;; os_Exit 1.

Definition todo {A} (msg : string) (args : list string) : proc A :=
  fatalf ("TODO: " ++ msg) args.

Definition viper_SetEnvPrefix (prefix : string) : proc () :=
  λ w, (Ret (), with_viper w (Viper prefix (v_automaticEnv (w_viper w)))).

Definition viper_AutomaticEnv : proc () :=
  λ w, (Ret (), with_viper w (Viper (v_envPrefix (w_viper w)) true)).

Definition initConfig : proc () :=
  viper_SetEnvPrefix "pixiecore" ;;
  viper_AutomaticEnv.

(** ** The standard library and [pflag] *)

(** A [net.IP]: a byte slice, nil when [None]. *)
Abbreviation IP := (option (list Z)).

Definition IPv4len : nat := 4.
Definition IPv6len : nat := 16.

Definition isZeros (p : list Z) : bool := forallb (Z.eqb 0) p.

(** [net.IP.To4]: the 4-byte form of an IPv4 address, nil otherwise. *)
Definition To4 (ip : IP) : IP :=
  match ip with
  | None => None
  | Some p =>
      if (length p =? IPv4len)%nat then Some p
      else if (length p =? IPv6len)%nat
              && isZeros (take 10 p)
              && (p !!! 10%nat =? 255)%Z
              && (p !!! 11%nat =? 255)%Z
      then Some (take 4 (drop 12 p))
      else None
  end.

(** [net.IPv4(a, b, c, d)]: the 16-byte form of an IPv4 address. *)
Definition IPv4 (a b c d : Z) : IP :=
  Some [0; 0; 0; 0; 0; 0; 0; 0; 0; 0; 255; 255; a; b; c; d].

Definition IPv4zero : IP := IPv4 0 0 0 0.

(** The two forms of IP literal. [net.ParseIP] reads a text as IPv4
    dotted decimal when its first ['.'] comes before any [':'], and as an
    IPv6 literal when its first [':'] comes before any ['.']. *)
Inductive ipText := IPv4Text | IPv6Text.

Fixpoint textForm (s : string) : option ipText :=
  match s with
  | EmptyString => None
  | String c s' =>
      if decide (c = "."%char) then Some IPv4Text
      else if decide (c = ":"%char) then Some IPv6Text
      else textForm s'
  end.

(** The text decoders and printers of the Go libraries that the flag
    package calls: [net.ParseIP] (nil on a string that is no IP literal),
    [net.IP.String], [strconv.ParseInt] and [strconv.ParseBool]. *)
Class GoLibs := {
  ParseIP : string → IP;
  IP_String : IP → string;
  ParseInt : string → option Z;
  ParseBool : string → option bool
}.

Inductive flagValue :=
| BoolV (b : bool)
| IPV (ip : IP)
| IntV (n : Z)
| StringV (s : string).

Definition flagType (v : flagValue) : string :=
  match v with
  | BoolV _ => "bool"
  | IPV _ => "ip"
  | IntV _ => "int"
  | StringV _ => "string"
  end.

Record Flag := MkFlag {
  f_shorthand : string;
  f_usage : string;
  f_value : flagValue;
  f_changed : bool
}.

(** A [pflag.FlagSet], by flag name. *)
Abbreviation FlagSet := (gmap string Flag).

Definition lookupTyped (cmd : FlagSet) (name ftype : string) : flagValue + error :=
  match cmd !! name with
  | None => inr ("flag accessed but not defined: " ++ name)
  | Some f =>
      if decide (flagType (f_value f) = ftype) then inl (f_value f)
      else inr ("trying to get " ++ ftype ++ " value of flag of type "
                ++ flagType (f_value f))
  end.

(** The typed getters return a value and an error, as in Go; the value is
    the zero value when the error is set. *)
Definition GetBool (cmd : FlagSet) (name : string) : bool * option error :=
  match lookupTyped cmd name "bool" with
  | inl (BoolV b) => (b, None)
  | inl _ => (false, Some "invalid flag value")
  | inr e => (false, Some e)
  end.

Definition GetInt (cmd : FlagSet) (name : string) : Z * option error :=
  match lookupTyped cmd name "int" with
  | inl (IntV n) => (n, None)
  | inl _ => (0, Some "invalid flag value")
  | inr e => (0, Some e)
  end.

Definition GetString (cmd : FlagSet) (name : string) : string * option error :=
  match lookupTyped cmd name "string" with
  | inl (StringV s) => (s, None)
  | inl _ => ("", Some "invalid flag value")
  | inr e => ("", Some e)
  end.

(** [GetIP] converts the flag's printed value back with [net.ParseIP]; a
    flag holding the nil address does not convert. *)
Definition GetIP (cmd : FlagSet) (name : string) : IP * option error :=
  match lookupTyped cmd name "ip" with
  | inl (IPV (Some p)) => (Some p, None)
  | inl _ => (None, Some "invalid string being converted to IP address")
  | inr e => (None, Some e)
  end.

Section Libs.
Context `{GoLibs}.

(** Decoding of a command-line value by the type of the flag. *)
Definition decodeValue (old : flagValue) (s : string) : flagValue + error :=
  match old with
  | BoolV _ =>
      match ParseBool s with
      | Some b => inl (BoolV b)
      | None => inr ("invalid syntax: " ++ s)
      end
  | IPV _ =>
      match ParseIP s with
      | Some p => inl (IPV (Some p))
      | None => inr ("failed to parse IP: " ++ s)
      end
  | IntV _ =>
      match ParseInt s with
      | Some n => inl (IntV n)
      | None => inr ("invalid syntax: " ++ s)
      end
  | StringV _ => inl (StringV s)
  end.

(** [FlagSet.Set]: what the parser does with [--name value]. On success
    the flag holds the decoded value and is marked as changed. *)
Definition FlagSet_Set (cmd : FlagSet) (name value : string) : FlagSet + error :=
  match cmd !! name with
  | None => inr ("no such flag -" ++ name)
  | Some f =>
      match decodeValue (f_value f) value with
      | inl v => inl (<[name := MkFlag (f_shorthand f) (f_usage f) v true]> cmd)
      | inr e => inr ("invalid argument for flag: " ++ e)
      end
  end.
End Libs.

Definition declare (name shorthand : string) (value : flagValue) (usage : string)
    (cmd : FlagSet) : FlagSet :=
  <[name := MkFlag shorthand usage value false]> cmd.

Definition serverConfigFlags (cmd : FlagSet) : FlagSet :=
  let cmd := declare "debug" "d" (BoolV false) "Log more things that aren't directly related to booting a recognized client" cmd in
  let cmd := declare "log-timestamps" "t" (BoolV false) "Add a timestamp to each log line" cmd in
  let cmd := declare "listen-addr" "l" (IPV IPv4zero) "IPv4 address to listen on" cmd in
  let cmd := declare "port" "p" (IntV 80) "Port to listen on for HTTP" cmd in
  let cmd := declare "ipxe-bios" "" (StringV "") "path to an iPXE binary for BIOS/UNDI" cmd in
  let cmd := declare "ipxe-efi32" "" (StringV "") "path to an iPXE binary for 32-bit UEFI" cmd in
  let cmd := declare "ipxe-efi64" "" (StringV "") "path to an iPXE binary for 64-bit UEFI" cmd in
  cmd.

(** ** The resolver *)

(** Modelled from the spec: the two log functions of the package are
    defined outside this file; the resolver only chooses between them, the
    plain one and the one that adds a timestamp to each line, so each is a
    name. *)
Inductive logFunc := logWithStdFmt | logWithStdLog.

(** Modelled from the spec: [pixiecore.Server] is declared in the
    [pixiecore] package, outside this file; these are the fields that
    [serverFromFlags] sets. [Ipxe] is a map reference; [Log] and [Debug]
    are function values, nil when [None]. *)
Record Server := MkServer {
  Ipxe : option loc;
  Log : option logFunc;
  Debug : option logFunc;
  HTTPPort : Z;
  Address : string
}.

Definition set_Log (ret : Server) (f : option logFunc) : Server :=
  MkServer (Ipxe ret) f (Debug ret) (HTTPPort ret) (Address ret).

Definition set_Debug (ret : Server) (f : option logFunc) : Server :=
  MkServer (Ipxe ret) (Log ret) f (HTTPPort ret) (Address ret).

Definition set_Address (ret : Server) (a : string) : Server :=
  MkServer (Ipxe ret) (Log ret) (Debug ret) (HTTPPort ret) a.

(** [if err != nil { ... }] *)
Definition ifErr (err : option error) (body : error → proc ()) : proc () :=
  match err with
  | Some e => body e
  | None => mret ()
  end.

(** [if cond { ... }] *)
Definition when (cond : bool) (body : proc ()) : proc () :=
  if cond then body else mret ().

Definition mustFile (path : string) : proc slice :=
  '(bs, err) ← ioutil_ReadFile path;
  ifErr err (λ e, fatalf "couldn't read file %q: %s" [path; e]) ;;
  mret bs.

Section Resolver.
Context `{GoLibs}.

Definition serverFromFlags (cmd : FlagSet) : proc Server :=
  let '(debug, err) := GetBool cmd "debug" in
  ifErr err (λ e, fatalf "Error reading flag: %s" [e]) ;;
  let '(timestamps, err) := GetBool cmd "log-timestamps" in
  ifErr err (λ e, fatalf "Error reading flag: %s" [e]) ;;
  let '(addr, err) := GetIP cmd "listen-addr" in
  ifErr err (λ e, fatalf "Error reading flag: %s" [e]) ;;
  let '(httpPort, err) := GetInt cmd "port" in
  ifErr err (λ e, fatalf "Error reading flag: %s" [e]) ;;
  let '(ipxeBios, err) := GetString cmd "ipxe-bios" in
  ifErr err (λ e, fatalf "Error reading flag: %s" [e]) ;;
  let '(ipxeEFI32, err) := GetString cmd "ipxe-efi32" in
  ifErr err (λ e, fatalf "Error reading flag: %s" [e]) ;;
  let '(ipxeEFI64, err) := GetString cmd "ipxe-efi64" in
  ifErr err (λ e, fatalf "Error reading flag: %s" [e]) ;;

  when (bool_decide (addr ≠ None) && bool_decide (To4 addr = None))
    (fatalf "Listen address must be IPv4" []) ;;
  when (bool_decide (httpPort ≤ 0)%Z)
    (fatalf "HTTP port must be >0" []) ;;

  ipxe ← new_map;
  let ret := MkServer (Some ipxe) (Some logWithStdFmt) None httpPort "" in
  registry ← read_Ipxe;
  entries ← map_range registry;
  forM_ entries (λ '(fwtype, bs), map_assign (Ipxe ret) fwtype bs) ;;
  when (bool_decide (ipxeBios ≠ ""))
    (bs ← mustFile ipxeBios; map_assign (Ipxe ret) FirmwareX86PC bs) ;;
  when (bool_decide (ipxeEFI32 ≠ ""))
    (bs ← mustFile ipxeEFI32; map_assign (Ipxe ret) FirmwareEFI32 bs) ;;
  when (bool_decide (ipxeEFI64 ≠ ""))
    (bs ← mustFile ipxeEFI64; map_assign (Ipxe ret) FirmwareEFI64 bs) ;;

  let ret := if timestamps then set_Log ret (Some logWithStdLog) else ret in
  let ret := if debug then set_Debug ret (Log ret) else ret in
  let ret := if bool_decide (addr ≠ None)
             then set_Address ret (IP_String addr) else ret in
  mret ret.
End Resolver.

(** ** The entry point *)

(** [CLI] as the sequence of calls it makes. The legacy detector
    [v1compatCLI] and the command router [rootCmd.Execute] are defined
    outside this file; each is a call whose answer the rest of [CLI]
    depends on. *)
Inductive prog :=
| Return
| Call_v1compatCLI (k : bool → prog)
| Call_Execute (k : option error → prog)
| Call_Println (e : error) (k : prog)
| Call_Exit (code : Z).

Definition CLI : prog :=
  Call_v1compatCLI (λ handled,
    if handled then Return
    else
      Call_Execute (λ err,
        match err with
        | Some e => Call_Println e (Call_Exit (-1))
        | None => Call_Exit 0
        end)).

Definition fmt_Println (e : error) : proc () :=
  fmt_Printf ("%v" ++ newline) [e].

(** The two command-parsing modes, as the calls that start them. *)
Inductive mode := Legacy | Modern.

#[global] Instance mode_eq_dec : EqDecision mode.
Proof. solve_decision. Defined.

Section Run.
(** Any behaviour of the two collaborators: each runs on the process
    state and returns, exits or panics. *)
Variable v1compatCLI : proc bool.
Variable rootCmd_Execute : proc (option error).

(** Runs a program; next to the outcome, the collaborators that were
    entered, in order. *)
Fixpoint run (p : prog) (w : world) : list mode * (outcome () * world) :=
  match p with
  | Return => ([], (Ret (), w))
  | Call_v1compatCLI k =>
      match v1compatCLI w with
      | (Ret b, w1) => let '(ms, r) := run (k b) w1 in (Legacy :: ms, r)
      | (Exit c, w1) => ([Legacy], (Exit c, w1))
      | (Panic msg, w1) => ([Legacy], (Panic msg, w1))
      end
  | Call_Execute k =>
      match rootCmd_Execute w with
      | (Ret err, w1) => let '(ms, r) := run (k err) w1 in (Modern :: ms, r)
      | (Exit c, w1) => ([Modern], (Exit c, w1))
      | (Panic msg, w1) => ([Modern], (Panic msg, w1))
      end
  | Call_Println e k =>
      match fmt_Println e w with
      | (_, w1) => run k w1
      end
  | Call_Exit code => ([], (Exit code, w))
  end.

(** The legacy detector handled the invocation: it answered [true], or
    it ended the process itself. *)
Definition legacyHandled (w : world) : Prop :=
  match (v1compatCLI w).1 with
  | Ret handled => handled = true
  | Exit _ => True
  | Panic _ => False
  end.
End Run.

(** ** Reading the model *)

(** The path the flags give for a firmware type; empty when the type has
    no flag or its flag is unset. *)
Definition flagPath (cmd : FlagSet) (fw : Firmware) : string :=
  if decide (fw = FirmwareX86PC) then (GetString cmd "ipxe-bios").1
  else if decide (fw = FirmwareEFI32) then (GetString cmd "ipxe-efi32").1
  else if decide (fw = FirmwareEFI64) then (GetString cmd "ipxe-efi64").1
  else "".

(** The map object a reference denotes; the nil map has no entries. *)
Definition map_at (w : world) (m : option loc) : gmap Z slice :=
  match m with
  | None => ∅
  | Some l => default ∅ (w_maps w !! l)
  end.

(** The bytes of the entry for [fw] in a map of the store. *)
Definition entry_bytes (w : world) (m : option loc) (fw : Firmware) : option bytes :=
  slice_bytes (w_arrays w) <$> (map_at w m !! fw).

(** A slice whose backing array is allocated. *)
Definition allocated (arrays : gmap loc bytes) (s : slice) : Prop :=
  match s_arr s with
  | None => True
  | Some a => is_Some (arrays !! a)
  end.


Definition flagsReadable (cmd : FlagSet) : Prop :=
  (GetBool cmd "debug").2 = None ∧
  (GetBool cmd "log-timestamps").2 = None ∧
  (GetIP cmd "listen-addr").2 = None ∧
  (GetInt cmd "port").2 = None ∧
  (GetString cmd "ipxe-bios").2 = None ∧
  (GetString cmd "ipxe-efi32").2 = None ∧
  (GetString cmd "ipxe-efi64").2 = None.

(** The registry as the copy loop reads it, after the server's map [m]
    was made. *)
Definition registry (w : world) (m : loc) : gmap Z slice :=
  map_at (with_maps w (<[m := ∅]> (w_maps w))) (w_Ipxe w).

(** A run that ends either by returning or by a fatal exit with status 1. *)
Definition clean {A} (r : outcome A * world) : Prop :=
  match r.1 with
  | Ret _ => True
  | Exit c => c = 1
  | Panic _ => False
  end.

(** The entries of a [range], assigned one after the other. *)
Definition assign_all (entries : list (Z * slice)) (mm : gmap Z slice) : gmap Z slice :=
  foldl (λ acc kv, <[kv.1 := kv.2]> acc) mm entries.

(** The state [wi] reached from [w] while the map [m] of the new server is
    filled: only the store has changed, by the new map, which holds [mm],
    and by new backing arrays. *)
Record tracks (w wi : world) (m : loc) (mm : gmap Z slice) : Prop := Tracks {
  t_env : w_env wi = w_env w;
  t_files : w_files wi = w_files w;
  t_Ipxe : w_Ipxe wi = w_Ipxe w;
  t_viper : w_viper wi = w_viper w;
  t_stdout : w_stdout wi = w_stdout w;
  t_arrays : w_arrays w ⊆ w_arrays wi;
  t_maps : w_maps wi = <[m := mm]> (w_maps w)
}.

(** [if path != "" { ret.Ipxe[fw] = mustFile(path) }] *)
Definition load (m : loc) (fw : Firmware) (path : string) : proc () :=
  when (bool_decide (path ≠ ""))
    (bs ← mustFile path; map_assign (Some m) fw bs).

(** The entry for a firmware type after its file was read. *)
Definition loaded (w wi : world) (mm : gmap Z slice) (fw : Firmware) (path : string) : Prop :=
  path ≠ "" →
  ∃ s contents,
    mm !! fw = Some s ∧ w_files w !! path = Some (Readable contents) ∧
    allocated (w_arrays wi) s ∧ slice_bytes (w_arrays wi) s = contents.

(** A state that differs in the environment and in viper's settings. *)
Definition with_env (w : world) (env : gmap string string) (v : viperState) : world :=
  World env (w_files w) (w_arrays w) (w_maps w) (w_Ipxe w) v (w_stdout w).

(** A procedure that neither reads nor writes the environment and viper's
    settings. *)
Definition env_blind {A} (p : proc A) : Prop :=
  ∀ w env v, p (with_env w env v) = ((p w).1, with_env (p w).2 env v).

(** The HTTP port of the server a run produced. *)
Definition resolvedPort (r : outcome Server * world) : option Z :=
  match r.1 with
  | Ret srv => Some (HTTPPort srv)
  | _ => None
  end.

(** The last line a run printed. *)
Definition lastPrinted {A} (r : outcome A * world) : option printed :=
  last (w_stdout r.2).

(** A listen address that the validation refuses. *)
Definition notIPv4 (addr : IP) : bool :=
  bool_decide (addr ≠ None) && bool_decide (To4 addr = None).



(** [arr[i] = b] through a slice, in place. *)
Definition slice_store (s : slice) (i : nat) (b : Z) : proc () :=
  match s_arr s with
  | None => panic "index out of range"
  | Some a =>
      if (i <? s_len s)%nat
      then λ w, (Ret (), with_arrays w (alter (<[(s_off s + i)%nat := b]>) a (w_arrays w)))
      else panic "index out of range"
  end.

(** ** Sample inputs *)

(** What the Go libraries answer on the strings of the sample inputs. *)
#[global] Instance exampleLibs : GoLibs := {|
  ParseIP s :=
    if decide (s = "::1") then Some [0; 0; 0; 0; 0; 0; 0; 0; 0; 0; 0; 0; 0; 0; 0; 1]
    else if decide (s = "10.0.0.1") then IPv4 10 0 0 1
    else if decide (s = "::ffff:10.0.0.1") then IPv4 10 0 0 1
    else None;
  IP_String ip :=
    if decide (ip = IPv4zero) then "0.0.0.0"
    else if decide (ip = IPv4 10 0 0 1) then "10.0.0.1"
    else "::1";
  ParseInt s :=
    if decide (s = "0") then Some 0
    else if decide (s = "-1") then Some (-1)
    else if decide (s = "8080") then Some 8080
    else if decide (s = "9000") then Some 9000
    else None;
  ParseBool s :=
    if decide (s ∈ ["1"; "t"; "T"; "TRUE"; "true"; "True"]) then Some true
    else if decide (s ∈ ["0"; "f"; "F"; "FALSE"; "false"; "False"]) then Some false
    else None
|}.

(** The flags of a server subcommand after [--name value] arguments. *)
Fixpoint parseFlags `{GoLibs} (cmd : FlagSet) (args : list (string * string)) : FlagSet + error :=
  match args with
  | [] => inl cmd
  | (name, value) :: args' =>
      match FlagSet_Set cmd name value with
      | inl cmd' => parseFlags cmd' args'
      | inr e => inr e
      end
  end.

Definition exampleFlags (args : list (string * string)) : FlagSet :=
  match parseFlags (serverConfigFlags ∅) args with
  | inl cmd => cmd
  | inr _ => ∅
  end.

(** A process with [PIXIECORE_PORT=8080] in its environment, an embedding
    program that registered binaries for BIOS and 64-bit UEFI, one readable
    and one unreadable file. *)
Definition exampleWorld : world :=
  World {[ "PIXIECORE_PORT" := "8080" ]}
        {[ "/boot/ipxe.pxe" := Readable [234; 5; 0; 192];
           "/boot/locked.efi" := Unreadable "permission denied" ]}
        {[ 5%positive := [77; 90; 144; 0; 3] ]}
        {[ 1%positive := {[ FirmwareX86PC := Slice (Some 5%positive) 0 2;
                            FirmwareEFI64 := Slice (Some 5%positive) 2 3 ]} ]}
        (Some 1%positive) (Viper "" false) [].

(** ** Reading the runs of the resolver *)

(** The error [ioutil.ReadFile] returns for a path, if any. *)
Definition readError (w : world) (path : string) : option error :=
  match w_files w !! path with
  | Some (Readable _) => None
  | Some (Unreadable e) => Some e
  | None => Some ("open " ++ path ++ ": no such file or directory")
  end.

(** The error of a path flag: an unset flag reads no file. *)
Definition fileError (w : world) (path : string) : option error :=
  if decide (path = "") then None else readError w path.

(** The first path, in the order given, whose file cannot be read. *)
Fixpoint firstFileError (w : world) (paths : list string) : option (string * error) :=
  match paths with
  | [] => None
  | path :: paths' =>
      match fileError w path with
      | Some e => Some (path, e)
      | None => firstFileError w paths'
      end
  end.

Fixpoint firstSome {A} (l : list (option A)) : option A :=
  match l with
  | [] => None
  | Some a :: _ => Some a
  | None :: l' => firstSome l'
  end.

(** The error of the first flag that cannot be read, in the order in
    which [serverFromFlags] reads the flags. *)
Definition flagError (cmd : FlagSet) : option error :=
  firstSome [(GetBool cmd "debug").2;
             (GetBool cmd "log-timestamps").2;
             (GetIP cmd "listen-addr").2;
             (GetInt cmd "port").2;
             (GetString cmd "ipxe-bios").2;
             (GetString cmd "ipxe-efi32").2;
             (GetString cmd "ipxe-efi64").2].

(** The line a failing resolution prints: the first failure among the
    flag reads, the address check, the port check and the file reads. *)
Definition diagnosis (cmd : FlagSet) (w : world) : option printed :=
  match flagError cmd with
  | Some e => Some (Printed ("Error reading flag: %s" ++ newline) [e])
  | None =>
      if notIPv4 (GetIP cmd "listen-addr").1
      then Some (Printed ("Listen address must be IPv4" ++ newline) [])
      else if bool_decide ((GetInt cmd "port").1 ≤ 0)%Z
      then Some (Printed ("HTTP port must be >0" ++ newline) [])
      else
        match firstFileError w [(GetString cmd "ipxe-bios").1;
                                (GetString cmd "ipxe-efi32").1;
                                (GetString cmd "ipxe-efi64").1] with
        | Some (path, e) =>
            Some (Printed ("couldn't read file %q: %s" ++ newline) [path; e])
        | None => None
        end
  end.

(** The server record that the flags determine, for the map [m]. *)
Definition resolvedServer `{GoLibs} (cmd : FlagSet) (m : loc) : Server :=
  let log := Some (if (GetBool cmd "log-timestamps").1
                   then logWithStdLog else logWithStdFmt) in
  MkServer (Some m) log
           (if (GetBool cmd "debug").1 then log else None)
           (GetInt cmd "port").1
           (if bool_decide ((GetIP cmd "listen-addr").1 ≠ None)
            then IP_String (GetIP cmd "listen-addr").1 else "").

(** What a run leaves as it found it: the environment, the files, the
    package variable, viper's settings, every map object and every backing
    array that existed, and what was printed before. *)
Record keeps (w w' : world) : Prop := Keeps {
  k_env : w_env w' = w_env w;
  k_files : w_files w' = w_files w;
  k_Ipxe : w_Ipxe w' = w_Ipxe w;
  k_viper : w_viper w' = w_viper w;
  k_arrays : w_arrays w ⊆ w_arrays w';
  k_maps : ∀ l, is_Some (w_maps w !! l) → w_maps w' !! l = w_maps w !! l;
  k_stdout : w_stdout w `prefix_of` w_stdout w'
}.

(** The state in which a run of the resolver stops: the initial one, or
    one in which the server's map is being filled. *)
Definition grown (w wi : world) : Prop :=
  wi = w ∨ ∃ mm, tracks w wi (fresh (dom (w_maps w))) mm.

(** The names that [serverConfigFlags] declares. *)
Definition serverFlagNames : list string :=
  ["debug"; "log-timestamps"; "listen-addr"; "port";
   "ipxe-bios"; "ipxe-efi32"; "ipxe-efi64"].

(** A flag that its typed getter can read: of the getter's type, and no
    nil address. *)
Definition readableAs (ftype : string) (cmd : FlagSet) (name : string) : Prop :=
  ∃ f, cmd !! name = Some f ∧ flagType (f_value f) = ftype ∧ f_value f ≠ IPV None.

Definition serverFlagsDeclared (cmd : FlagSet) : Prop :=
  readableAs "bool" cmd "debug" ∧
  readableAs "bool" cmd "log-timestamps" ∧
  readableAs "ip" cmd "listen-addr" ∧
  readableAs "int" cmd "port" ∧
  readableAs "string" cmd "ipxe-bios" ∧
  readableAs "string" cmd "ipxe-efi32" ∧
  readableAs "string" cmd "ipxe-efi64".

(** * Properties *)

(** ** Running sequences *)

Lemma bind_run {A B} (m : proc A) (f : A → proc B) (w : world) :
  (m ≫= f) w =
  match m w with
  | (Ret a, w1) => f a w1
  | (Exit c, w1) => (Exit c, w1)
  | (Panic msg, w1) => (Panic msg, w1)
  end.
Proof. reflexivity. Qed.

Lemma bind_Ret_inv {A B} (m : proc A) (f : A → proc B) w b w' :
  (m ≫= f) w = (Ret b, w') →
  ∃ a w1, m w = (Ret a, w1) ∧ f a w1 = (Ret b, w').
Proof.
  rewrite bind_run. destruct (m w) as [[a|c|msg] w1]; try discriminate.
  intros Hf. by exists a, w1.
Qed.

Lemma clean_bind {A B} (m : proc A) (f : A → proc B) w :
  clean (m w) →
  (∀ a w1, m w = (Ret a, w1) → clean (f a w1)) →
  clean ((m ≫= f) w).
Proof.
  rewrite bind_run. destruct (m w) as [[a|c|msg] w1]; simpl; auto.
Qed.

Lemma clean_fatalf {A} msg args w : clean (@fatalf A msg args w).
Proof. reflexivity. Qed.

Lemma clean_ifErr_fatalf err msg args w :
  clean (ifErr err (λ e, fatalf msg (args e)) w).
Proof. destruct err; [apply clean_fatalf | exact I]. Qed.

Lemma clean_when c (body : proc ()) w :
  clean (body w) → clean (when c body w).
Proof. destruct c; [done | intros _; exact I]. Qed.

Lemma clean_mustFile path w : clean (mustFile path w).
Proof.
  unfold mustFile. apply clean_bind.
  - unfold ioutil_ReadFile. by destruct (w_files w !! path) as [[?|?]|].
  - intros [bs err] w1 _. apply clean_bind; [|intros; exact I].
    apply (clean_ifErr_fatalf err _ (λ e, [path; e])).
Qed.

Lemma clean_forM_ {A} (l : list A) (body : A → proc ()) w :
  (∀ x w1, clean (body x w1)) → clean (forM_ l body w).
Proof.
  intros Hb. revert w. induction l as [|x l IH]; intros w; [exact I|].
  simpl. apply clean_bind; auto.
Qed.

(** ** Procedures that do not look at the environment *)

Lemma env_blind_bind {A B} (m : proc A) (f : A → proc B) :
  env_blind m → (∀ a, env_blind (f a)) → env_blind (m ≫= f).
Proof.
  intros Hm Hf w env v. rewrite !bind_run, Hm.
  destruct (m w) as [[a|c|msg] w1]; simpl; [apply Hf|done|done].
Qed.

Lemma env_blind_ret {A} (a : A) : env_blind (mret a).
Proof. by intros w env v. Qed.

Lemma env_blind_fatalf {A} msg args : env_blind (@fatalf A msg args).
Proof. by intros w env v. Qed.

Lemma env_blind_ifErr err body :
  (∀ e, env_blind (body e)) → env_blind (ifErr err body).
Proof. destruct err as [e|]; intros Hb; [apply Hb | apply env_blind_ret]. Qed.

Lemma env_blind_when c body : env_blind body → env_blind (when c body).
Proof. destruct c; [done|]. intros _. apply env_blind_ret. Qed.

Lemma env_blind_map_assign m k v : env_blind (map_assign m k v).
Proof. destruct m; by intros w env v'. Qed.

Lemma env_blind_forM_ {A} (l : list A) (body : A → proc ()) :
  (∀ x, env_blind (body x)) → env_blind (forM_ l body).
Proof.
  intros Hb. induction l as [|x l IH]; [apply env_blind_ret|].
  simpl. apply env_blind_bind; auto.
Qed.

Lemma env_blind_mustFile path : env_blind (mustFile path).
Proof.
  unfold mustFile. apply env_blind_bind.
  - intros w env v. unfold ioutil_ReadFile; simpl.
    by destruct (w_files w !! path) as [[?|?]|].
  - intros [bs err]. apply env_blind_bind; [|intros; apply env_blind_ret].
    apply env_blind_ifErr. intros; apply env_blind_fatalf.
Qed.

(** ** The copy loop *)

Lemma forM_assign_run (l : loc) (entries : list (Z * slice)) (w : world) :
  forM_ entries (λ '(fwtype, bs), map_assign (Some l) fwtype bs) w =
  (Ret (), with_maps w (alter (assign_all entries) l (w_maps w))).
Proof.
  revert w. induction entries as [|[k v] entries IH]; intros w.
  - simpl. unfold mret, proc_ret. f_equal.
    destruct w; unfold with_maps; simpl. f_equal.
    symmetry. by apply alter_id.
  - simpl. rewrite bind_run. simpl. rewrite IH.
    f_equal. unfold with_maps; simpl. f_equal.
    by rewrite alter_alter_eq.
Qed.

Lemma assign_all_list_to_map (entries : list (Z * slice)) :
  assign_all entries ∅ = list_to_map (reverse entries).
Proof.
  unfold assign_all.
  induction entries as [|[k v] entries IH] using rev_ind; [done|].
  rewrite foldl_app, reverse_app. simpl. by rewrite IH.
Qed.

(** The order in which [range] visits the entries of the registry does not
    show in the copy. *)
Lemma assign_all_range (reg : gmap Z slice) (entries : list (Z * slice)) :
  entries ≡ₚ map_to_list reg → assign_all entries ∅ = reg.
Proof.
  intros Hp. rewrite assign_all_list_to_map.
  rewrite <- (list_to_map_to_list reg). apply list_to_map_proper.
  - rewrite reverse_Permutation, Hp. apply NoDup_fst_map_to_list.
  - by rewrite reverse_Permutation.
Qed.

(** The copy loop leaves the same store for every order in which [range]
    may visit the registry. *)
Lemma range_order_irrelevant (l : loc) (reg : gmap Z slice)
    (entries : list (Z * slice)) (w : world) :
  w_maps w !! l = Some ∅ →
  entries ≡ₚ map_to_list reg →
  forM_ entries (λ '(fwtype, bs), map_assign (Some l) fwtype bs) w =
  forM_ (map_to_list reg) (λ '(fwtype, bs), map_assign (Some l) fwtype bs) w.
Proof.
  intros Hl Hp. rewrite !forM_assign_run. do 2 f_equal.
  apply map_eq. intros j. destruct (decide (l = j)) as [<-|Hne].
  - rewrite !lookup_alter_eq, Hl. simpl.
    by rewrite (assign_all_range reg entries), (assign_all_range reg (map_to_list reg)).
  - by rewrite !lookup_alter_ne.
Qed.

(** ** The store while the server is built *)

Lemma slice_bytes_mono (arrays arrays' : gmap loc bytes) (s : slice) :
  arrays ⊆ arrays' → allocated arrays s →
  slice_bytes arrays' s = slice_bytes arrays s.
Proof.
  unfold allocated, slice_bytes. destruct (s_arr s) as [a|]; [|done].
  intros Hsub [bs Hbs]. by rewrite Hbs, (lookup_weaken _ _ _ _ Hbs Hsub).
Qed.

Lemma allocated_mono (arrays arrays' : gmap loc bytes) (s : slice) :
  arrays ⊆ arrays' → allocated arrays s → allocated arrays' s.
Proof.
  unfold allocated. destruct (s_arr s) as [a|]; [|done].
  intros Hsub Ha. by eapply lookup_weaken_is_Some.
Qed.

Lemma loaded_mono w wi wi' mm mm' fw path :
  w_arrays wi ⊆ w_arrays wi' → mm' !! fw = mm !! fw →
  loaded w wi mm fw path → loaded w wi' mm' fw path.
Proof.
  intros Hsub Hfw Hl Hp. destruct (Hl Hp) as (s & c & Hs & Hf & Ha & Hb).
  exists s, c. rewrite Hfw. split_and!; [done|done| |].
  - by eapply allocated_mono.
  - by rewrite (slice_bytes_mono _ _ _ Hsub Ha).
Qed.

Lemma mustFile_Ret_inv path w s w' :
  mustFile path w = (Ret s, w') →
  ∃ contents,
    w_files w !! path = Some (Readable contents) ∧
    s = Slice (Some (fresh (dom (w_arrays w)))) 0 (length contents) ∧
    w' = with_arrays w (<[fresh (dom (w_arrays w)) := contents]> (w_arrays w)).
Proof.
  unfold mustFile. rewrite bind_run. unfold ioutil_ReadFile.
  destruct (w_files w !! path) as [[c|e]|]; simpl; try discriminate.
  intros [= <- <-]. by exists c.
Qed.

Lemma load_tracks w wi m mm fw path wi' :
  tracks w wi m mm →
  load m fw path wi = (Ret (), wi') →
  ∃ mm', tracks w wi' m mm' ∧
         w_arrays wi ⊆ w_arrays wi' ∧
         (∀ k, k ≠ fw → mm' !! k = mm !! k) ∧
         (path = "" → mm' = mm) ∧
         loaded w wi' mm' fw path.
Proof.
  intros [He Hf Hi Hv Ho Ha Hm]. unfold load, when. case_bool_decide as Hp.
  - intros (s & w1 & Hread & Hassign)%bind_Ret_inv.
    apply mustFile_Ret_inv in Hread as (c & Hfile & -> & ->).
    simpl in Hassign. injection Hassign as <-. simpl.
    set (a := fresh (dom (w_arrays wi))).
    assert (w_arrays wi !! a = None) as Hfresh
      by apply (not_elem_of_dom (D:=gset loc)), is_fresh.
    exists (<[fw := Slice (Some a) 0 (length c)]> mm). split_and!.
    + constructor; simpl; try done.
      * etrans; [exact Ha|]. by apply insert_subseteq.
      * by rewrite Hm, alter_insert_eq.
    + by apply insert_subseteq.
    + intros k Hk. by rewrite lookup_insert_ne.
    + done.
    + intros _. exists (Slice (Some a) 0 (length c)), c. split_and!.
      * by rewrite lookup_insert_eq.
      * by rewrite <- Hf.
      * unfold allocated; simpl. rewrite lookup_insert_eq. by eexists.
      * unfold slice_bytes; simpl. rewrite lookup_insert_eq; simpl.
        by rewrite drop_0, take_ge.
  - intros [= <-]. exists mm. split_and!; try done. intros Hne. by destruct Hne.
Qed.

(** ** What a successful resolution did *)

Section ResolverFacts.
Context `{GoLibs}.

Ltac get_flag H G E :=
  destruct G as [? [?|]] eqn:E;
  [ by rewrite bind_run in H
  | rewrite bind_run in H; cbn [ifErr mret proc_ret] in H ].

Lemma serverFromFlags_Ret_inv cmd w srv w' :
  serverFromFlags cmd w = (Ret srv, w') →
  let m := fresh (dom (w_maps w)) in
  let debug := (GetBool cmd "debug").1 in
  let timestamps := (GetBool cmd "log-timestamps").1 in
  let addr := (GetIP cmd "listen-addr").1 in
  let log := Some (if timestamps then logWithStdLog else logWithStdFmt) in
  flagsReadable cmd ∧
  (addr = None ∨ To4 addr ≠ None) ∧
  0 < (GetInt cmd "port").1 ∧
  srv = MkServer (Some m) log (if debug then log else None)
                 (GetInt cmd "port").1
                 (if bool_decide (addr ≠ None) then IP_String addr else "") ∧
  ∃ mm,
    tracks w w' m mm ∧
    loaded w w' mm FirmwareX86PC (GetString cmd "ipxe-bios").1 ∧
    loaded w w' mm FirmwareEFI32 (GetString cmd "ipxe-efi32").1 ∧
    loaded w w' mm FirmwareEFI64 (GetString cmd "ipxe-efi64").1 ∧
    (∀ fw, flagPath cmd fw = "" → mm !! fw = registry w m !! fw).
Proof.
  intros Hrun. unfold serverFromFlags in Hrun.
  get_flag Hrun (GetBool cmd "debug") Ed.
  get_flag Hrun (GetBool cmd "log-timestamps") Et.
  get_flag Hrun (GetIP cmd "listen-addr") Ea0.
  get_flag Hrun (GetInt cmd "port") Ep0.
  get_flag Hrun (GetString cmd "ipxe-bios") Eb.
  get_flag Hrun (GetString cmd "ipxe-efi32") E32.
  get_flag Hrun (GetString cmd "ipxe-efi64") E64.
  apply bind_Ret_inv in Hrun as ([] & w1 & Haddr & Hrun).
  apply bind_Ret_inv in Hrun as ([] & w2 & Hport & Hrun).
  unfold when in Haddr, Hport.
  destruct (bool_decide (o ≠ None) && bool_decide (To4 o = None)) eqn:Ea;
    [discriminate Haddr|].
  destruct (bool_decide (z ≤ 0)%Z) eqn:Ep; [discriminate Hport|].
  apply bool_decide_eq_false in Ep.
  injection Haddr as <-. injection Hport as <-.
  apply bind_Ret_inv in Hrun as (ipxe & w3 & Hnew & Hrun).
  injection Hnew as <- <-.
  set (m := fresh (dom (w_maps w))) in *.
  rewrite bind_run in Hrun. cbn [read_Ipxe] in Hrun.
  rewrite bind_run in Hrun. cbn [map_range] in Hrun.
  rewrite bind_run in Hrun. cbn [Ipxe] in Hrun.
  rewrite forM_assign_run in Hrun.
  assert (w_maps w !! m = None) as Hfresh
    by apply (not_elem_of_dom (D:=gset loc)), is_fresh.
  match type of Hrun with _ ?w0 = _ =>
    assert (tracks w w0 m (registry w m)) as Ht0
  end.
  { constructor; try done. cbn.
    rewrite alter_insert_eq. f_equal.
    unfold registry, map_at. cbn.
    destruct (w_Ipxe w) as [g|]; [|done]. by apply assign_all_range. }
  apply bind_Ret_inv in Hrun as ([] & w4 & Hl1 & Hrun).
  apply bind_Ret_inv in Hrun as ([] & w5 & Hl2 & Hrun).
  apply bind_Ret_inv in Hrun as ([] & w6 & Hl3 & Hrun).
  destruct (load_tracks _ _ _ _ _ _ _ Ht0 Hl1) as (mm1 & Ht1 & Ha1 & Hk1 & He1 & Hd1).
  destruct (load_tracks _ _ _ _ _ _ _ Ht1 Hl2) as (mm2 & Ht2 & Ha2 & Hk2 & He2 & Hd2).
  destruct (load_tracks _ _ _ _ _ _ _ Ht2 Hl3) as (mm3 & Ht3 & Ha3 & Hk3 & He3 & Hd3).
  injection Hrun as <- <-. cbn.
  unfold flagsReadable. rewrite Ed, Et, Ea0, Ep0, Eb, E32, E64. cbn.
  split; [done|]. split; [|split; [lia|split]].
  - apply andb_false_iff in Ea as [Ea|Ea]; apply bool_decide_eq_false in Ea.
    + left. by apply dec_stable.
    + by right.
  - destruct (bool_decide (o ≠ None)), b, b0; reflexivity.
  - exists mm3. split_and!; [done| | |done|].
    + eapply loaded_mono; [exact Ha3| |].
      * by apply Hk3.
      * eapply loaded_mono; [exact Ha2| |done]. by apply Hk2.
    + eapply loaded_mono; [exact Ha3| |done]. by apply Hk3.
    + intros fw Hfw. unfold flagPath in Hfw.
      rewrite Eb, E32, E64 in Hfw. cbn in Hfw.
      assert (mm1 !! fw = registry w m !! fw) as E1.
      { destruct (decide (fw = FirmwareX86PC)) as [->|]; [by rewrite He1|by apply Hk1]. }
      assert (mm2 !! fw = mm1 !! fw) as E2.
      { destruct (decide (fw = FirmwareEFI32)) as [->|]; [|by apply Hk2].
        rewrite He2; [done|]. by destruct (decide (FirmwareEFI32 = FirmwareX86PC)). }
      assert (mm3 !! fw = mm2 !! fw) as E3.
      { destruct (decide (fw = FirmwareEFI64)) as [->|]; [|by apply Hk3].
        rewrite He3; [done|].
        destruct (decide (FirmwareEFI64 = FirmwareX86PC)); [done|].
        by destruct (decide (FirmwareEFI64 = FirmwareEFI32)). }
      congruence.
Qed.

(** The resolver returns a server or ends the process with status 1. *)
Lemma serverFromFlags_clean cmd w : clean (serverFromFlags cmd w).
Proof.
  unfold serverFromFlags.
  destruct (GetBool cmd "debug") as [debug err1].
  apply clean_bind; [apply (clean_ifErr_fatalf _ _ (λ e, [e]))|intros _ ? _].
  destruct (GetBool cmd "log-timestamps") as [timestamps err2].
  apply clean_bind; [apply (clean_ifErr_fatalf _ _ (λ e, [e]))|intros _ ? _].
  destruct (GetIP cmd "listen-addr") as [addr err3].
  apply clean_bind; [apply (clean_ifErr_fatalf _ _ (λ e, [e]))|intros _ ? _].
  destruct (GetInt cmd "port") as [httpPort err4].
  apply clean_bind; [apply (clean_ifErr_fatalf _ _ (λ e, [e]))|intros _ ? _].
  destruct (GetString cmd "ipxe-bios") as [ipxeBios err5].
  apply clean_bind; [apply (clean_ifErr_fatalf _ _ (λ e, [e]))|intros _ ? _].
  destruct (GetString cmd "ipxe-efi32") as [ipxeEFI32 err6].
  apply clean_bind; [apply (clean_ifErr_fatalf _ _ (λ e, [e]))|intros _ ? _].
  destruct (GetString cmd "ipxe-efi64") as [ipxeEFI64 err7].
  apply clean_bind; [apply (clean_ifErr_fatalf _ _ (λ e, [e]))|intros _ ? _].
  apply clean_bind; [apply clean_when, clean_fatalf|intros _ ? _].
  apply clean_bind; [apply clean_when, clean_fatalf|intros _ ? _].
  apply clean_bind; [exact I|intros ipxe ? _].
  apply clean_bind; [exact I|intros registry ? _].
  apply clean_bind; [exact I|intros entries ? _].
  apply clean_bind; [apply clean_forM_; by intros [] ?|intros _ ? _].
  assert (∀ fw path wi,
    clean (when (bool_decide (path ≠ ""))
             (bs ← mustFile path; map_assign (Some ipxe) fw bs) wi)) as Hload.
  { intros fw path wi. apply clean_when, clean_bind; [apply clean_mustFile|].
    intros; exact I. }
  apply clean_bind; [apply Hload|intros _ ? _].
  apply clean_bind; [apply Hload|intros _ ? _].
  apply clean_bind; [apply Hload|intros _ ? _].
  exact I.
Qed.

Lemma serverFromFlags_Exit cmd w :
  (∀ srv w', serverFromFlags cmd w ≠ (Ret srv, w')) →
  ∃ w', serverFromFlags cmd w = (Exit 1, w').
Proof.
  intros Hn. pose proof (serverFromFlags_clean cmd w) as Hc.
  destruct (serverFromFlags cmd w) as [[srv|c|msg] w'] eqn:E.
  - by destruct (Hn srv w').
  - exists w'. unfold clean in Hc; simpl in Hc. by subst c.
  - destruct Hc.
Qed.

(** The resolver reads the flag set only: the environment and viper's
    settings do not reach it. *)
Lemma serverFromFlags_env_blind cmd : env_blind (serverFromFlags cmd).
Proof.
  unfold serverFromFlags.
  assert (∀ err, env_blind (ifErr err (λ e, fatalf "Error reading flag: %s" [e])))
    as Herr by (intros; apply env_blind_ifErr; intros; apply env_blind_fatalf).
  destruct (GetBool cmd "debug") as [debug err1].
  apply env_blind_bind; [apply Herr|intros _].
  destruct (GetBool cmd "log-timestamps") as [timestamps err2].
  apply env_blind_bind; [apply Herr|intros _].
  destruct (GetIP cmd "listen-addr") as [addr err3].
  apply env_blind_bind; [apply Herr|intros _].
  destruct (GetInt cmd "port") as [httpPort err4].
  apply env_blind_bind; [apply Herr|intros _].
  destruct (GetString cmd "ipxe-bios") as [ipxeBios err5].
  apply env_blind_bind; [apply Herr|intros _].
  destruct (GetString cmd "ipxe-efi32") as [ipxeEFI32 err6].
  apply env_blind_bind; [apply Herr|intros _].
  destruct (GetString cmd "ipxe-efi64") as [ipxeEFI64 err7].
  apply env_blind_bind; [apply Herr|intros _].
  apply env_blind_bind; [apply env_blind_when, env_blind_fatalf|intros _].
  apply env_blind_bind; [apply env_blind_when, env_blind_fatalf|intros _].
  apply env_blind_bind; [by intros w env v|intros ipxe].
  apply env_blind_bind; [by intros w env v|intros registry].
  apply env_blind_bind; [by intros w env v|intros entries].
  apply env_blind_bind;
    [apply env_blind_forM_; intros []; apply env_blind_map_assign|intros _].
  assert (∀ fw path,
    env_blind (when (bool_decide (path ≠ ""))
                 (bs ← mustFile path; map_assign (Some ipxe) fw bs))) as Hload.
  { intros fw path. apply env_blind_when, env_blind_bind;
      [apply env_blind_mustFile|]. intros; apply env_blind_map_assign. }
  apply env_blind_bind; [apply Hload|intros _].
  apply env_blind_bind; [apply Hload|intros _].
  apply env_blind_bind; [apply Hload|intros _].
  apply env_blind_ret.
Qed.
End ResolverFacts.

(** * The claims *)

(** ** C3: a port that is not positive *)

(** C3. For every integer port value less than or equal to 0 held by the
    [port] flag, [serverFromFlags] ends the process with exit status 1,
    from every state; it returns no server. *)
Theorem C3_nonpositive_port_is_fatal `{GoLibs} (cmd : FlagSet) (w : world) (port : Z) :
  GetInt cmd "port" = (port, None) →
  (port ≤ 0)%Z →
  ∃ w', serverFromFlags cmd w = (Exit 1, w').
Proof.
  intros Hget Hport. apply serverFromFlags_Exit. intros srv w' Hrun.
  apply serverFromFlags_Ret_inv in Hrun as (_ & _ & Hpos & _).
  rewrite Hget in Hpos. simpl in Hpos. lia.
Qed.

Lemma C3_nonpositive_port_witness :
  GetInt (exampleFlags [("port", "-1")]) "port" = (-1, None) ∧
  (-1 ≤ 0)%Z ∧
  ∃ w', serverFromFlags (exampleFlags [("port", "-1")]) exampleWorld = (Exit 1, w').
Proof.
  split; [reflexivity|]. split; [lia|].
  apply (C3_nonpositive_port_is_fatal _ _ (-1)); [reflexivity|lia].
Defined.

(** ** C8: a firmware file that cannot be read *)

(** C8. When the path flag of a firmware type names a file that cannot be
    read, [serverFromFlags] ends the process with exit status 1 and returns
    no server, whatever the other flags and the registry hold. *)
Theorem C8_unreadable_firmware_is_fatal `{GoLibs} (cmd : FlagSet) (w : world)
    (fw : Firmware) :
  flagPath cmd fw ≠ "" →
  (∀ contents, w_files w !! flagPath cmd fw ≠ Some (Readable contents)) →
  ∃ w', serverFromFlags cmd w = (Exit 1, w').
Proof.
  intros Hpath Hfile. apply serverFromFlags_Exit. intros srv w' Hrun.
  apply serverFromFlags_Ret_inv in Hrun
    as (_ & _ & _ & _ & mm & _ & Hbios & H32 & H64 & _).
  unfold flagPath in Hpath, Hfile.
  repeat case_decide; [| | |done].
  - destruct (Hbios Hpath) as (s & c & _ & Hread & _). by destruct (Hfile c).
  - destruct (H32 Hpath) as (s & c & _ & Hread & _). by destruct (Hfile c).
  - destruct (H64 Hpath) as (s & c & _ & Hread & _). by destruct (Hfile c).
Qed.

Lemma C8_unreadable_firmware_witness :
  let cmd := exampleFlags [("ipxe-bios", "/path/to/missing.bin")] in
  flagPath cmd FirmwareX86PC ≠ "" ∧
  (∀ contents,
     w_files exampleWorld !! flagPath cmd FirmwareX86PC ≠ Some (Readable contents)) ∧
  ∃ w', serverFromFlags cmd exampleWorld = (Exit 1, w').
Proof.
  assert (flagPath (exampleFlags [("ipxe-bios", "/path/to/missing.bin")])
            FirmwareX86PC ≠ "") as Hpath by (vm_compute; discriminate).
  assert (∀ contents,
            w_files exampleWorld
              !! flagPath (exampleFlags [("ipxe-bios", "/path/to/missing.bin")])
                   FirmwareX86PC ≠ Some (Readable contents)) as Hfile
    by (intros contents; vm_compute; discriminate).
  split; [exact Hpath|]. split; [exact Hfile|].
  exact (C8_unreadable_firmware_is_fatal _ _ FirmwareX86PC Hpath Hfile).
Defined.

(** ** C9: the debug logger *)

(** C9. In the server that [serverFromFlags] returns, the debug logger is
    the server's own logger when the debug flag is on, and is not set when
    the flag is off; the server's logger is the timestamping one exactly
    when the timestamp flag is on. *)
Theorem C9_debug_logger_is_base_logger `{GoLibs} (cmd : FlagSet) (w : world)
    (srv : Server) (w' : world) :
  serverFromFlags cmd w = (Ret srv, w') →
  Debug srv = (if (GetBool cmd "debug").1 then Log srv else None) ∧
  Log srv = Some (if (GetBool cmd "log-timestamps").1
                  then logWithStdLog else logWithStdFmt).
Proof.
  intros Hrun.
  apply serverFromFlags_Ret_inv in Hrun as (_ & _ & _ & -> & _).
  simpl. by destruct (GetBool cmd "debug").1.
Qed.

Lemma C9_debug_logger_witness :
  let cmd := exampleFlags [("debug", "true"); ("log-timestamps", "true")] in
  ∃ srv w',
    serverFromFlags cmd exampleWorld = (Ret srv, w') ∧
    Debug srv = Some logWithStdLog ∧ Log srv = Some logWithStdLog.
Proof.
  eassert (serverFromFlags
             (exampleFlags [("debug", "true"); ("log-timestamps", "true")])
             exampleWorld = (Ret _, _)) as Hrun by (vm_compute; reflexivity).
  eexists _, _. split; [exact Hrun|].
  exact (C9_debug_logger_is_base_logger _ _ _ _ Hrun).
Defined.

(** ** The server resolved from the defaults *)

Example resolves_defaults :
  (serverFromFlags (serverConfigFlags ∅) exampleWorld).1
  = Ret (MkServer (Some 2%positive) (Some logWithStdFmt) None 80 "0.0.0.0").
Proof. reflexivity. Qed.

Example resolves_flags :
  (serverFromFlags
     (exampleFlags [("debug", "true"); ("listen-addr", "10.0.0.1"); ("port", "8080")])
     exampleWorld).1
  = Ret (MkServer (Some 2%positive) (Some logWithStdFmt) (Some logWithStdFmt)
                  8080 "10.0.0.1").
Proof. by vm_compute. Qed.

Example missing_file_is_reported :
  let r := serverFromFlags (exampleFlags [("ipxe-efi32", "/boot/locked.efi")])
             exampleWorld in
  r.1 = Exit 1 ∧
  lastPrinted r = Some (Printed ("couldn't read file %q: %s" ++ newline)
                          ["/boot/locked.efi"; "permission denied"]).
Proof. by split; vm_compute. Qed.

(** ** C5 and C6: the firmware binaries of the server *)

Lemma registry_map_at (w : world) :
  registry w (fresh (dom (w_maps w))) = map_at w (w_Ipxe w).
Proof.
  unfold registry, map_at; simpl. destruct (w_Ipxe w) as [g|]; [|done].
  destruct (decide (fresh (dom (w_maps w)) = g)) as [<-|Hne].
  - rewrite lookup_insert_eq.
    by rewrite (not_elem_of_dom_1 (D:=gset loc) (w_maps w) _ (is_fresh _)).
  - by rewrite lookup_insert_ne.
Qed.

Lemma tracks_map_at w w' m mm : tracks w w' m mm → map_at w' (Some m) = mm.
Proof. intros Ht. unfold map_at. by rewrite (t_maps _ _ _ _ Ht), lookup_insert_eq. Qed.

(** C5. For every firmware type whose path flag is set, the entry of that
    type in the map of the server that [serverFromFlags] returns holds the
    full contents of the file the flag names, whatever the registry held
    for the type. *)
Theorem C5_flag_binary_overrides_registry `{GoLibs} (cmd : FlagSet) (w : world)
    (srv : Server) (w' : world) (fw : Firmware) :
  serverFromFlags cmd w = (Ret srv, w') →
  flagPath cmd fw ≠ "" →
  ∃ contents,
    w_files w !! flagPath cmd fw = Some (Readable contents) ∧
    entry_bytes w' (Ipxe srv) fw = Some contents.
Proof.
  intros Hrun Hpath.
  apply serverFromFlags_Ret_inv in Hrun
    as (_ & _ & _ & -> & mm & Ht & Hbios & H32 & H64 & _).
  unfold entry_bytes. cbn [Ipxe]. rewrite (tracks_map_at _ _ _ _ Ht).
  unfold flagPath in *.
  repeat case_decide; subst; [| | |done].
  - destruct (Hbios Hpath) as (s & c & -> & Hread & _ & <-). by exists (slice_bytes (w_arrays w') s).
  - destruct (H32 Hpath) as (s & c & -> & Hread & _ & <-). by exists (slice_bytes (w_arrays w') s).
  - destruct (H64 Hpath) as (s & c & -> & Hread & _ & <-). by exists (slice_bytes (w_arrays w') s).
Qed.

Lemma C5_flag_binary_witness :
  let cmd := exampleFlags [("ipxe-bios", "/boot/ipxe.pxe")] in
  entry_bytes exampleWorld (w_Ipxe exampleWorld) FirmwareX86PC = Some [77; 90] ∧
  ∃ srv w',
    serverFromFlags cmd exampleWorld = (Ret srv, w') ∧
    flagPath cmd FirmwareX86PC ≠ "" ∧
    entry_bytes w' (Ipxe srv) FirmwareX86PC = Some [234; 5; 0; 192].
Proof.
  split; [reflexivity|].
  assert (flagPath (exampleFlags [("ipxe-bios", "/boot/ipxe.pxe")]) FirmwareX86PC ≠ "")
    as Hpath by (vm_compute; discriminate).
  eassert (serverFromFlags (exampleFlags [("ipxe-bios", "/boot/ipxe.pxe")])
             exampleWorld = (Ret _, _)) as Hrun by (vm_compute; reflexivity).
  eexists _, _. split; [exact Hrun|]. split; [exact Hpath|].
  destruct (C5_flag_binary_overrides_registry _ _ _ _ FirmwareX86PC Hrun Hpath)
    as (c & Hc & Hentry).
  vm_compute in Hc. injection Hc as <-. exact Hentry.
Defined.

(** C6. For every firmware type that has an entry in the registry and no
    path flag set, the entry of that type in the map of the server that
    [serverFromFlags] returns is the registry's entry: the same slice, over
    the same bytes. *)
Theorem C6_unflagged_binary_is_kept `{GoLibs} (cmd : FlagSet) (w : world)
    (srv : Server) (w' : world) (fw : Firmware) (s : slice) :
  serverFromFlags cmd w = (Ret srv, w') →
  map_at w (w_Ipxe w) !! fw = Some s →
  allocated (w_arrays w) s →
  flagPath cmd fw = "" →
  map_at w' (Ipxe srv) !! fw = Some s ∧
  entry_bytes w' (Ipxe srv) fw = entry_bytes w (w_Ipxe w) fw.
Proof.
  intros Hrun Hreg Halloc Hpath.
  apply serverFromFlags_Ret_inv in Hrun
    as (_ & _ & _ & -> & mm & Ht & _ & _ & _ & Hkeep).
  unfold entry_bytes. cbn [Ipxe]. rewrite (tracks_map_at _ _ _ _ Ht).
  rewrite (Hkeep fw Hpath), registry_map_at, Hreg. split; [done|]. simpl.
  by rewrite (slice_bytes_mono _ _ _ (t_arrays _ _ _ _ Ht) Halloc).
Qed.

Lemma C6_unflagged_binary_witness :
  let cmd := exampleFlags [("ipxe-bios", "/boot/ipxe.pxe")] in
  let s := Slice (Some 5%positive) 2 3 in
  ∃ srv w',
    serverFromFlags cmd exampleWorld = (Ret srv, w') ∧
    map_at exampleWorld (w_Ipxe exampleWorld) !! FirmwareEFI64 = Some s ∧
    allocated (w_arrays exampleWorld) s ∧
    flagPath cmd FirmwareEFI64 = "" ∧
    map_at w' (Ipxe srv) !! FirmwareEFI64 = Some s ∧
    entry_bytes w' (Ipxe srv) FirmwareEFI64 = Some [144; 0; 3].
Proof.
  assert (allocated (w_arrays exampleWorld) (Slice (Some 5%positive) 2 3)) as Halloc
    by (eexists; reflexivity).
  eassert (serverFromFlags (exampleFlags [("ipxe-bios", "/boot/ipxe.pxe")])
             exampleWorld = (Ret _, _)) as Hrun by (vm_compute; reflexivity).
  eexists _, _. split; [exact Hrun|].
  split; [reflexivity|]. split; [exact Halloc|]. split; [reflexivity|].
  destruct (C6_unflagged_binary_is_kept _ _ _ _ FirmwareEFI64 _
              Hrun eq_refl Halloc eq_refl) as [Hslice Hbytes].
  split; [exact Hslice|]. exact (eq_trans Hbytes eq_refl).
Defined.

(** ** C10: the server's map and the registry *)





(** The copy is of the map, not of the bytes: the server's entries and the
    registry's are slices over the same backing arrays, so a byte stored
    in place through a registry slice shows in the server's entry. *)
Example registry_bytes_are_shared :
  let r := serverFromFlags (exampleFlags []) exampleWorld in
  let s := Slice (Some 5%positive) 0 2 in
  map_at r.2 (w_Ipxe r.2) !! FirmwareX86PC = Some s ∧
  ∃ srv, r.1 = Ret srv ∧
    entry_bytes r.2 (Ipxe srv) FirmwareX86PC = Some [77; 90] ∧
    entry_bytes (slice_store s 0 255 r.2).2 (Ipxe srv) FirmwareX86PC = Some [255; 90].
Proof. split; [reflexivity|]. eexists. by split_and!; vm_compute. Qed.

(** ** C2: the order of the validation checks *)

(** C2 as stated fails: with a listen address that is not IPv4 and a
    port of 0, the error reported is the address error, not the port
    error. *)
Lemma C2_port_error_is_not_reported_first :
  let cmd := exampleFlags [("listen-addr", "::1"); ("port", "0")] in
  let r := serverFromFlags cmd exampleWorld in
  ((GetInt cmd "port").1 ≤ 0)%Z ∧
  notIPv4 (GetIP cmd "listen-addr").1 = true ∧
  r.1 = Exit 1 ∧
  lastPrinted r = Some (Printed ("Listen address must be IPv4" ++ newline) []) ∧
  lastPrinted r ≠ Some (Printed ("HTTP port must be >0" ++ newline) []).
Proof. by split_and!; vm_compute. Qed.

(** C2, amended. The listen-address check runs first and the port check
    second, and the first failure is the one reported: when the flags can
    be read and a check fails, the process exits with status 1 after
    printing the address error if the address is not IPv4 (also when the
    port is not positive as well), and the port error otherwise. *)
Theorem C2_address_is_checked_before_port `{GoLibs} (cmd : FlagSet) (w : world) :
  flagsReadable cmd →
  notIPv4 (GetIP cmd "listen-addr").1 = true ∨ ((GetInt cmd "port").1 ≤ 0)%Z →
  serverFromFlags cmd w =
  (Exit 1,
   with_stdout w
     (w_stdout w ++
      [Printed ((if notIPv4 (GetIP cmd "listen-addr").1
                 then "Listen address must be IPv4"
                 else "HTTP port must be >0") ++ newline) []])).
Proof.
  intros (Hd & Ht & Ha & Hp & Hb & H32 & H64) Hbad.
  unfold serverFromFlags.
  destruct (GetBool cmd "debug") as [debug ?]; simpl in Hd; subst.
  destruct (GetBool cmd "log-timestamps") as [timestamps ?]; simpl in Ht; subst.
  destruct (GetIP cmd "listen-addr") as [addr ?]; simpl in Ha; subst.
  destruct (GetInt cmd "port") as [httpPort ?]; simpl in Hp; subst.
  destruct (GetString cmd "ipxe-bios") as [ipxeBios ?]; simpl in Hb; subst.
  destruct (GetString cmd "ipxe-efi32") as [ipxeEFI32 ?]; simpl in H32; subst.
  destruct (GetString cmd "ipxe-efi64") as [ipxeEFI64 ?]; simpl in H64; subst.
  cbn [fst ifErr] in *. fold (notIPv4 addr).
  destruct (notIPv4 addr); [reflexivity|].
  destruct Hbad as [?|Hport]; [done|].
  by rewrite (bool_decide_eq_true_2 _ Hport).
Qed.

Lemma C2_address_is_checked_before_port_witness :
  let cmd := exampleFlags [("listen-addr", "::1"); ("port", "0")] in
  flagsReadable cmd ∧
  (notIPv4 (GetIP cmd "listen-addr").1 = true ∨ ((GetInt cmd "port").1 ≤ 0)%Z) ∧
  (serverFromFlags cmd exampleWorld).1 = Exit 1 ∧
  lastPrinted (serverFromFlags cmd exampleWorld)
  = Some (Printed ("Listen address must be IPv4" ++ newline) []).
Proof.
  assert (flagsReadable (exampleFlags [("listen-addr", "::1"); ("port", "0")]))
    as Hread by (by repeat split).
  assert (notIPv4 (GetIP (exampleFlags [("listen-addr", "::1"); ("port", "0")])
                     "listen-addr").1 = true) as Haddr by reflexivity.
  split; [exact Hread|]. split; [by left|].
  rewrite (C2_address_is_checked_before_port _ exampleWorld Hread (or_introl Haddr)).
  split; reflexivity.
Defined.

(** ** C4: the listen address *)

(** A server is returned only for a listen address that is an IPv4
    address. *)
Lemma serverFromFlags_listen_addr_is_IPv4 `{GoLibs} (cmd : FlagSet) (w : world)
    (srv : Server) (w' : world) :
  serverFromFlags cmd w = (Ret srv, w') →
  ∃ p, GetIP cmd "listen-addr" = (Some p, None) ∧ To4 (Some p) ≠ None.
Proof.
  intros Hrun.
  apply serverFromFlags_Ret_inv in Hrun as ((_ & _ & Herr & _) & Haddr & _).
  unfold GetIP in *.
  destruct (lookupTyped cmd "listen-addr" "ip") as [[| [p|] | |]|]; try done.
  exists p. split; [done|]. by destruct Haddr.
Qed.

(** An IPv4-mapped address is an IPv4 address for [To4]: it is the form
    [net.ParseIP] returns for dotted-decimal text. *)
Example ipv4_mapped_is_IPv4 :
  To4 (Some [0; 0; 0; 0; 0; 0; 0; 0; 0; 0; 255; 255; 10; 0; 0; 1]) = Some [10; 0; 0; 1] ∧
  To4 (IPv4 10 0 0 1) = Some [10; 0; 0; 1] ∧
  To4 (Some [0; 0; 0; 0; 0; 0; 0; 0; 0; 0; 0; 0; 0; 0; 0; 1]) = None.
Proof. by split_and!. Qed.

(** C4 as stated fails: [::ffff:10.0.0.1] is an IPv6 literal that
    [net.ParseIP] accepts, in IPv4-mapped form; [To4] is not nil on the
    address it parses to, and the resolver returns a server that listens
    on 10.0.0.1. *)
Lemma C4_ipv4_mapped_literal_is_accepted :
  let s := "::ffff:10.0.0.1" in
  textForm s = Some IPv6Text ∧
  ParseIP s = Some [0; 0; 0; 0; 0; 0; 0; 0; 0; 0; 255; 255; 10; 0; 0; 1] ∧
  ∃ cmd',
    FlagSet_Set (serverConfigFlags ∅) "listen-addr" s = inl cmd' ∧
    (serverFromFlags cmd' exampleWorld).1
    = Ret (MkServer (Some 2%positive) (Some logWithStdFmt) None 80 "10.0.0.1").
Proof.
  split; [reflexivity|]. split; [reflexivity|].
  eexists. split; [reflexivity|]. by vm_compute.
Qed.

(** C4, amended. A value given to [--listen-addr] that is no IP literal,
    or that parses to an address with no IPv4 form ([To4] is nil: the IPv6
    addresses other than the IPv4-mapped ones), yields no server: the flag
    parser refuses the former, and on the flag set the parser returns for
    the latter [serverFromFlags] ends the process with exit status 1. *)
Theorem C4_listen_addr_must_be_IPv4 `{GoLibs} (cmd : FlagSet) (f : Flag) (ip0 : IP)
    (s : string) (w : world) :
  cmd !! "listen-addr" = Some f →
  f_value f = IPV ip0 →
  ParseIP s = None ∨ To4 (ParseIP s) = None →
  match FlagSet_Set cmd "listen-addr" s with
  | inr _ => ParseIP s = None
  | inl cmd' =>
      GetIP cmd' "listen-addr" = (ParseIP s, None) ∧
      ∃ w', serverFromFlags cmd' w = (Exit 1, w')
  end.
Proof.
  intros Hf Hv Hbad. unfold FlagSet_Set. rewrite Hf, Hv. simpl.
  destruct (ParseIP s) as [p|] eqn:Hparse; [|done].
  destruct Hbad as [?|Hv6]; [done|].
  assert (GetIP (<["listen-addr" := MkFlag (f_shorthand f) (f_usage f)
                                      (IPV (Some p)) true]> cmd) "listen-addr"
          = (Some p, None)) as Hget.
  { unfold GetIP, lookupTyped. by rewrite lookup_insert_eq. }
  split; [done|]. apply serverFromFlags_Exit. intros srv w' Hrun.
  apply serverFromFlags_listen_addr_is_IPv4 in Hrun as (q & Hq & Hv4).
  congruence.
Qed.

Lemma C4_listen_addr_witness :
  let cmd := serverConfigFlags ∅ in
  ∃ f cmd' w',
    cmd !! "listen-addr" = Some f ∧
    f_value f = IPV IPv4zero ∧
    (ParseIP "::1" = None ∨ To4 (ParseIP "::1") = None) ∧
    FlagSet_Set cmd "listen-addr" "::1" = inl cmd' ∧
    serverFromFlags cmd' exampleWorld = (Exit 1, w').
Proof.
  eassert (serverConfigFlags ∅ !! "listen-addr" = Some _) as Hf by reflexivity.
  eassert (FlagSet_Set (serverConfigFlags ∅) "listen-addr" "::1" = inl _) as Hset
    by reflexivity.
  pose proof (C4_listen_addr_must_be_IPv4 (serverConfigFlags ∅) _ IPv4zero "::1"
                exampleWorld Hf eq_refl (or_intror eq_refl)) as Hthm.
  rewrite Hset in Hthm. destruct Hthm as (_ & w' & Hexit).
  eexists _, _, w'. split; [exact Hf|]. split; [reflexivity|].
  split; [by right|]. split; [exact Hset|exact Hexit].
Defined.

(** ** C1: flags, environment and defaults *)

Lemma GetInt_port_default (cmd : FlagSet) :
  GetInt (serverConfigFlags cmd) "port" = (80, None).
Proof.
  unfold GetInt, lookupTyped, serverConfigFlags, declare.
  by rewrite !(lookup_insert_ne _ _ "port") by done; rewrite lookup_insert_eq.
Qed.

Lemma serverFromFlags_HTTPPort `{GoLibs} (cmd : FlagSet) (w : world)
    (srv : Server) (w' : world) :
  serverFromFlags cmd w = (Ret srv, w') → HTTPPort srv = (GetInt cmd "port").1.
Proof.
  intros Hrun. by apply serverFromFlags_Ret_inv in Hrun as (_ & _ & _ & -> & _).
Qed.

(** With the port flag unset, the resolved port is the flag's default,
    whatever the environment holds and whatever was set in viper. *)
Lemma port_default_in_any_environment `{GoLibs} (w : world)
    (env : gmap string string) (v : viperState) (srv : Server) (w' : world) :
  serverFromFlags (serverConfigFlags ∅) (with_env w env v) = (Ret srv, w') →
  HTTPPort srv = 80.
Proof.
  intros Hrun. apply serverFromFlags_HTTPPort in Hrun.
  by rewrite GetInt_port_default in Hrun.
Qed.

(** C1. The run at the failing input: with [PIXIECORE_PORT=8080] in the
    environment, [initConfig] run and [--port] not given, the resolved
    port is the default 80, not 8080; with [--port 9000] given it is
    9000. *)
Theorem C1_port_from_environment_is_ignored :
  w_env exampleWorld !! "PIXIECORE_PORT" = Some "8080" ∧
  resolvedPort ((initConfig ;; serverFromFlags (exampleFlags [])) exampleWorld)
  = Some 80 ∧
  resolvedPort ((initConfig ;; serverFromFlags (exampleFlags [("port", "9000")]))
                  exampleWorld)
  = Some 9000.
Proof. by split_and!; vm_compute. Qed.

(** ** C7: legacy and modern mode *)

(** C7. When the legacy detector handles the invocation, [CLI] never
    enters the command router, whatever the router would do: no run of
    [CLI] has both modes. *)
Theorem C7_legacy_excludes_router (v1compatCLI : proc bool)
    (rootCmd_Execute : proc (option error)) (w : world) :
  legacyHandled v1compatCLI w →
  Modern ∉ (run v1compatCLI rootCmd_Execute CLI w).1.
Proof.
  assert (Modern ∉ [Legacy]) as Hone
    by (apply not_elem_of_cons; split; [done|apply not_elem_of_nil]).
  unfold legacyHandled. simpl.
  destruct (v1compatCLI w) as [[handled|c|msg] w1]; simpl; [|done..].
  by intros ->.
Qed.

Lemma C7_legacy_excludes_router_witness :
  let v1compatCLI : proc bool := mret true in
  let rootCmd_Execute : proc (option error) := mret None in
  legacyHandled v1compatCLI exampleWorld ∧
  Modern ∉ (run v1compatCLI rootCmd_Execute CLI exampleWorld).1.
Proof.
  assert (legacyHandled (mret true) exampleWorld) as Hleg by reflexivity.
  split; [exact Hleg|].
  exact (C7_legacy_excludes_router (mret true) (mret None) exampleWorld Hleg).
Defined.

(** When the legacy detector declines, the router runs next. *)
Lemma router_runs_after_legacy_declines (v1compatCLI : proc bool)
    (rootCmd_Execute : proc (option error)) (w w1 : world) :
  v1compatCLI w = (Ret false, w1) →
  take 2 (run v1compatCLI rootCmd_Execute CLI w).1 = [Legacy; Modern].
Proof.
  intros Hv. simpl. rewrite Hv. simpl.
  destruct (rootCmd_Execute w1) as [[[e|]|c|msg] w2]; reflexivity.
Qed.

(** * Further properties of the code *)

(** ** Reading a firmware file *)

Lemma mustFile_run (path : string) (w : world) :
  mustFile path w =
  match w_files w !! path with
  | Some (Readable contents) =>
      let a := fresh (dom (w_arrays w)) in
      (Ret (Slice (Some a) 0 (length contents)),
       with_arrays w (<[a := contents]> (w_arrays w)))
  | _ =>
      (Exit 1,
       with_stdout w
         (w_stdout w ++
          [Printed ("couldn't read file %q: %s" ++ newline)
                   [path; default "" (readError w path)]]))
  end.
Proof.
  unfold mustFile, readError. rewrite bind_run. unfold ioutil_ReadFile.
  by destruct (w_files w !! path) as [[c|e]|].
Qed.

Lemma load_outcome (w wi : world) (m : loc) (mm : gmap Z slice)
    (fw : Firmware) (path : string) :
  tracks w wi m mm →
  match fileError w path with
  | None => ∃ wi' mm', load m fw path wi = (Ret (), wi') ∧ tracks w wi' m mm'
  | Some e =>
      load m fw path wi =
      (Exit 1,
       with_stdout wi
         (w_stdout w ++ [Printed ("couldn't read file %q: %s" ++ newline) [path; e]]))
  end.
Proof.
  intros Ht. unfold fileError.
  assert (∀ wi', load m fw path wi = (Ret (), wi') → ∃ wi' mm',
            load m fw path wi = (Ret (), wi') ∧ tracks w wi' m mm') as Hret.
  { intros wi' Hl. destruct (load_tracks _ _ _ _ _ _ _ Ht Hl) as (mm' & Ht' & _).
    by exists wi', mm'. }
  case_decide as Hp.
  - apply (Hret wi). unfold load, when. by rewrite bool_decide_eq_false_2 by (by intros []).
  - assert (load m fw path wi = (mustFile path ≫= λ bs, map_assign (Some m) fw bs) wi)
      as Hl by (unfold load, when; by rewrite bool_decide_eq_true_2).
    rewrite bind_run, mustFile_run in Hl. unfold readError in *.
    rewrite (t_files _ _ _ _ Ht), (t_stdout _ _ _ _ Ht) in Hl.
    destruct (w_files w !! path) as [[c|e]|] eqn:Hf; simpl in Hl.
    + by eapply Hret.
    + done.
    + done.
Qed.

Lemma tracks_keeps (w wi : world) (mm : gmap Z slice) :
  tracks w wi (fresh (dom (w_maps w))) mm → keeps w wi.
Proof.
  intros [He Hf Hi Hv Ho Ha Hm]. constructor; try done.
  - intros l Hl. rewrite Hm, lookup_insert_ne; [done|].
    intros <-. apply (elem_of_dom (D:=gset loc)) in Hl. by apply is_fresh in Hl.
  - by rewrite Ho.
Qed.

Lemma grown_keeps (w wi : world) : grown w wi → keeps w wi.
Proof.
  intros [->|[mm Ht]]; [by constructor|]. by eapply tracks_keeps.
Qed.

Lemma keeps_with_stdout (w wi : world) (out : list printed) :
  keeps w wi → keeps w (with_stdout wi (w_stdout w ++ out)).
Proof.
  intros [He Hf Hi Hv Ha Hm Ho]. constructor; try done.
  simpl. by apply prefix_app_r.
Qed.

Lemma firstSome_None_flagError (cmd : FlagSet) :
  flagError cmd = None ↔ flagsReadable cmd.
Proof.
  unfold flagError, flagsReadable.
  cbn [firstSome].
  repeat match goal with
  | |- context [match ?o with Some _ => _ | None => _ end] =>
      destruct o as [?|];
      [split; [discriminate|intros Hall; decompose [and] Hall; discriminate]|]
  end.
  split; [intros _; by repeat split|done].
Qed.

Lemma diagnosis_None (cmd : FlagSet) (w : world) :
  diagnosis cmd w = None ↔
  flagError cmd = None ∧
  notIPv4 (GetIP cmd "listen-addr").1 = false ∧
  (0 < (GetInt cmd "port").1)%Z ∧
  firstFileError w [(GetString cmd "ipxe-bios").1;
                    (GetString cmd "ipxe-efi32").1;
                    (GetString cmd "ipxe-efi64").1] = None.
Proof.
  unfold diagnosis.
  destruct (flagError cmd); [split; [discriminate|intros [? _]; discriminate]|].
  destruct (notIPv4 _); [split; [discriminate|intros (_ & ? & _); discriminate]|].
  case_bool_decide as Hp; [split; [discriminate|intros (_ & _ & ? & _); lia]|].
  destruct (firstFileError _ _) as [[path e]|].
  - split; [discriminate|intros (_ & _ & _ & ?); discriminate].
  - split; [|done]. intros _. repeat split. lia.
Qed.

Section RunFacts.
Context `{GoLibs}.

(** Every run of the resolver: with no failure to report it returns the
    server that the flags determine; otherwise it prints the diagnosis and
    exits with status 1. *)
Lemma serverFromFlags_run (cmd : FlagSet) (w : world) :
  match diagnosis cmd w with
  | None =>
      ∃ w' mm,
        serverFromFlags cmd w
        = (Ret (resolvedServer cmd (fresh (dom (w_maps w)))), w') ∧
        tracks w w' (fresh (dom (w_maps w))) mm
  | Some p =>
      ∃ wi,
        serverFromFlags cmd w = (Exit 1, with_stdout wi (w_stdout w ++ [p])) ∧
        grown w wi
  end.
Proof.
  unfold diagnosis, flagError, resolvedServer, serverFromFlags.
  destruct (GetBool cmd "debug") as [debug [e|]]; cbn [fst snd firstSome];
    [exists w; split; [reflexivity|by left]|].
  destruct (GetBool cmd "log-timestamps") as [timestamps [e|]]; cbn [fst snd firstSome];
    [exists w; split; [reflexivity|by left]|].
  destruct (GetIP cmd "listen-addr") as [addr [e|]]; cbn [fst snd firstSome];
    [exists w; split; [reflexivity|by left]|].
  destruct (GetInt cmd "port") as [httpPort [e|]]; cbn [fst snd firstSome];
    [exists w; split; [reflexivity|by left]|].
  destruct (GetString cmd "ipxe-bios") as [ipxeBios [e|]]; cbn [fst snd firstSome];
    [exists w; split; [reflexivity|by left]|].
  destruct (GetString cmd "ipxe-efi32") as [ipxeEFI32 [e|]]; cbn [fst snd firstSome];
    [exists w; split; [reflexivity|by left]|].
  destruct (GetString cmd "ipxe-efi64") as [ipxeEFI64 [e|]]; cbn [fst snd firstSome];
    [exists w; split; [reflexivity|by left]|].
  cbn [ifErr]. fold (notIPv4 addr).
  destruct (notIPv4 addr); [exists w; split; [reflexivity|by left]|].
  destruct (bool_decide (httpPort ≤ 0)%Z); [exists w; split; [reflexivity|by left]|].
  do 9 (rewrite bind_run; cbn [mret proc_ret when]).
  rewrite bind_run. cbn [new_map].
  set (m := fresh (dom (w_maps w))).
  rewrite bind_run. cbn [read_Ipxe].
  rewrite bind_run. cbn [map_range].
  rewrite bind_run. cbn [Ipxe]. rewrite forM_assign_run.
  assert (w_maps w !! m = None) as Hfresh
    by apply (not_elem_of_dom (D:=gset loc)), is_fresh.
  match goal with |- context [when _ _ ≫= _] =>
    match goal with |- context [mbind ?k ?c ?w0] =>
      assert (tracks w w0 m (registry w m)) as Ht0
    end
  end.
  { constructor; try done. cbn.
    rewrite alter_insert_eq. f_equal.
    unfold registry, map_at. cbn.
    destruct (w_Ipxe w) as [g|]; [|done]. by apply assign_all_range. }
  match type of Ht0 with tracks _ ?w0 _ _ => set (w0' := w0) in *; clearbody w0' end.
  fold (load m FirmwareX86PC ipxeBios) (load m FirmwareEFI32 ipxeEFI32)
       (load m FirmwareEFI64 ipxeEFI64).
  cbn [firstFileError].
  pose proof (load_outcome w w0' m _ FirmwareX86PC ipxeBios Ht0) as H1.
  destruct (fileError w ipxeBios) as [e|].
  { exists w0'. rewrite bind_run, H1. split; [reflexivity|right; by eexists]. }
  destruct H1 as (w1 & mm1 & H1 & Ht1). rewrite bind_run, H1.
  pose proof (load_outcome w w1 m _ FirmwareEFI32 ipxeEFI32 Ht1) as H2.
  destruct (fileError w ipxeEFI32) as [e|].
  { exists w1. rewrite bind_run, H2. split; [reflexivity|right; by eexists]. }
  destruct H2 as (w2 & mm2 & H2 & Ht2). rewrite bind_run, H2.
  pose proof (load_outcome w w2 m _ FirmwareEFI64 ipxeEFI64 Ht2) as H3.
  destruct (fileError w ipxeEFI64) as [e|].
  { exists w2. rewrite bind_run, H3. split; [reflexivity|right; by eexists]. }
  destruct H3 as (w3 & mm3 & H3 & Ht3). rewrite bind_run, H3.
  exists w3, mm3. split; [|done].
  by destruct (bool_decide (addr ≠ None)), debug, timestamps.
Qed.

(** X1. [serverFromFlags] returns a server exactly when nothing fails: all
    seven flags can be read, the listen address is not a non-IPv4 address,
    the port is positive, and every path flag that is set names a readable
    file. A run that returns has printed nothing. *)
Theorem X1_returns_iff_nothing_fails (cmd : FlagSet) (w : world) :
  ((∃ srv w', serverFromFlags cmd w = (Ret srv, w')) ↔
   flagError cmd = None ∧
   notIPv4 (GetIP cmd "listen-addr").1 = false ∧
   (0 < (GetInt cmd "port").1)%Z ∧
   firstFileError w [(GetString cmd "ipxe-bios").1;
                     (GetString cmd "ipxe-efi32").1;
                     (GetString cmd "ipxe-efi64").1] = None) ∧
  ∀ srv w', serverFromFlags cmd w = (Ret srv, w') → w_stdout w' = w_stdout w.
Proof.
  rewrite <- diagnosis_None. pose proof (serverFromFlags_run cmd w) as Hrun.
  destruct (diagnosis cmd w) as [p|].
  - destruct Hrun as (wi & Hexit & _). split.
    + split; [|done]. intros (srv & w' & Hret). congruence.
    + intros srv w' Hret. congruence.
  - destruct Hrun as (w1 & mm & Hret & Ht). split.
    + split; [done|]. intros _. by eexists _, w1.
    + intros srv w' Hret'. rewrite Hret in Hret'. injection Hret' as _ <-.
      apply (t_stdout _ _ _ _ Ht).
Qed.

(** X2. A resolution that fails reports the first failure only, in the
    order: the flags as they are read (debug, log-timestamps, listen-addr,
    port, ipxe-bios, ipxe-efi32, ipxe-efi64), the listen address, the
    port, then the files for BIOS, 32-bit UEFI and 64-bit UEFI. It prints
    that one line and exits with status 1. *)
Theorem X2_failure_prints_first_diagnosis (cmd : FlagSet) (w : world) (p : printed) :
  diagnosis cmd w = Some p →
  ∃ w', serverFromFlags cmd w = (Exit 1, w') ∧ w_stdout w' = (w_stdout w ++ [p])%list.
Proof.
  intros Hd. pose proof (serverFromFlags_run cmd w) as Hrun. rewrite Hd in Hrun.
  destruct Hrun as (wi & Hexit & _). by eexists.
Qed.

Lemma serverFromFlags_keeps (cmd : FlagSet) (w : world) :
  keeps w (serverFromFlags cmd w).2.
Proof.
  pose proof (serverFromFlags_run cmd w) as Hrun.
  destruct (diagnosis cmd w) as [p|].
  - destruct Hrun as (wi & -> & Hg). by apply keeps_with_stdout, grown_keeps.
  - destruct Hrun as (w' & mm & -> & Ht). by eapply tracks_keeps.
Qed.

(** X3. Whatever its outcome, a run of [serverFromFlags] leaves the
    environment, the files, viper's settings and the package variable
    [Ipxe] as they were, changes no map object and no backing array that
    existed (so the registry is not extended), and only adds to what was
    printed. *)
Theorem X3_resolver_keeps_the_state (cmd : FlagSet) (w : world) :
  w_env (serverFromFlags cmd w).2 = w_env w ∧
  w_files (serverFromFlags cmd w).2 = w_files w ∧
  w_viper (serverFromFlags cmd w).2 = w_viper w ∧
  w_Ipxe (serverFromFlags cmd w).2 = w_Ipxe w ∧
  (∀ l, is_Some (w_maps w !! l) →
        w_maps (serverFromFlags cmd w).2 !! l = w_maps w !! l) ∧
  w_arrays w ⊆ w_arrays (serverFromFlags cmd w).2 ∧
  w_stdout w `prefix_of` w_stdout (serverFromFlags cmd w).2.
Proof.
  destruct (serverFromFlags_keeps cmd w) as [He Hf Hi Hv Ha Hm Ho].
  by split_and!.
Qed.

(** X4. The server that [serverFromFlags] returns is determined by the
    flags: its port is the port flag and is positive, its address is the
    printed form of the listen-address flag, which is an IPv4 address, and
    its map is a map object that did not exist before. *)
Theorem X4_returned_server_fields (cmd : FlagSet) (w : world)
    (srv : Server) (w' : world) :
  serverFromFlags cmd w = (Ret srv, w') →
  srv = resolvedServer cmd (fresh (dom (w_maps w))) ∧
  HTTPPort srv = (GetInt cmd "port").1 ∧ (0 < HTTPPort srv)%Z ∧
  (∃ l, Ipxe srv = Some l ∧ w_maps w !! l = None ∧ is_Some (w_maps w' !! l)) ∧
  ∃ p, (GetIP cmd "listen-addr").1 = Some p ∧ To4 (Some p) ≠ None ∧
       Address srv = IP_String (Some p).
Proof.
  intros Hrun.
  destruct (serverFromFlags_listen_addr_is_IPv4 _ _ _ _ Hrun) as (p & Hp & Hv4).
  apply serverFromFlags_Ret_inv in Hrun as (_ & _ & Hpos & -> & mm & Ht & _).
  split; [reflexivity|]. split; [reflexivity|]. split; [exact Hpos|]. split.
  - eexists. split; [reflexivity|]. split.
    + apply (not_elem_of_dom (D:=gset loc)), is_fresh.
    + rewrite (t_maps _ _ _ _ Ht), lookup_insert_eq. by eexists.
  - exists p. cbn [Address]. rewrite Hp. cbn [fst].
    by rewrite bool_decide_eq_true_2.
Qed.

(** X5. The map of the returned server has an entry for a firmware type
    exactly when the type's path flag is set or the registry has an entry
    for it: no other key appears, and none is lost. *)
Theorem X5_server_map_keys (cmd : FlagSet) (w : world)
    (srv : Server) (w' : world) (fw : Firmware) :
  serverFromFlags cmd w = (Ret srv, w') →
  is_Some (map_at w' (Ipxe srv) !! fw) ↔
  flagPath cmd fw ≠ "" ∨ is_Some (map_at w (w_Ipxe w) !! fw).
Proof.
  intros Hrun.
  apply serverFromFlags_Ret_inv in Hrun
    as (_ & _ & _ & -> & mm & Ht & Hbios & H32 & H64 & Hkeep).
  cbn [Ipxe]. rewrite (tracks_map_at _ _ _ _ Ht).
  destruct (decide (flagPath cmd fw = "")) as [Hp|Hp].
  - rewrite (Hkeep fw Hp), registry_map_at. split; [by right|by intros [?|?]].
  - split; [by left|]. intros _. unfold flagPath in Hp.
    repeat case_decide; subst; [| | |done].
    + destruct (Hbios Hp) as (s & c & -> & _). by eexists.
    + destruct (H32 Hp) as (s & c & -> & _). by eexists.
    + destruct (H64 Hp) as (s & c & -> & _). by eexists.
Qed.
End RunFacts.

(** X8. [mustFile] on a readable file returns a slice over a new backing
    array that holds the whole file, prints nothing and changes no
    existing array; on any other path it prints one line with the path
    and the read error and exits with status 1, the store unchanged. *)
Theorem X8_mustFile_reads_whole_file_or_exits (path : string) (w : world) :
  match w_files w !! path with
  | Some (Readable contents) =>
      ∃ s w', mustFile path w = (Ret s, w') ∧
              slice_bytes (w_arrays w') s = contents ∧
              s_len s = length contents ∧
              ¬ allocated (w_arrays w) s ∧
              keeps w w' ∧ w_stdout w' = w_stdout w ∧ w_maps w' = w_maps w
  | _ =>
      ∃ e, readError w path = Some e ∧
           mustFile path w =
           (Exit 1,
            with_stdout w
              (w_stdout w ++
               [Printed ("couldn't read file %q: %s" ++ newline) [path; e]]))
  end.
Proof.
  rewrite mustFile_run. unfold readError.
  destruct (w_files w !! path) as [[c|e]|]; [|by eexists..].
  set (a := fresh (dom (w_arrays w))).
  assert (w_arrays w !! a = None) as Hfresh
    by apply (not_elem_of_dom (D:=gset loc)), is_fresh.
  eexists _, _. split; [reflexivity|]. split_and!; try done.
  - unfold slice_bytes; simpl. rewrite lookup_insert_eq; simpl.
    by rewrite drop_0, take_ge.
  - unfold allocated; simpl. rewrite Hfresh. by intros [? ?].
  - constructor; try done. simpl. by apply insert_subseteq.
Qed.

(** ** The declared flags and the flags that are read *)

Lemma serverConfigFlags_declares (cmd0 : FlagSet) :
  serverFlagsDeclared (serverConfigFlags cmd0).
Proof.
  unfold serverFlagsDeclared, readableAs, serverConfigFlags, declare.
  repeat split;
    (eexists; split;
     [rewrite ?lookup_insert_ne by done; apply lookup_insert_eq|by split]).
Qed.

Lemma serverConfigFlags_gets (cmd0 : FlagSet) :
  GetBool (serverConfigFlags cmd0) "debug" = (false, None) ∧
  GetBool (serverConfigFlags cmd0) "log-timestamps" = (false, None) ∧
  GetIP (serverConfigFlags cmd0) "listen-addr" = (IPv4zero, None) ∧
  GetInt (serverConfigFlags cmd0) "port" = (80, None) ∧
  GetString (serverConfigFlags cmd0) "ipxe-bios" = ("", None) ∧
  GetString (serverConfigFlags cmd0) "ipxe-efi32" = ("", None) ∧
  GetString (serverConfigFlags cmd0) "ipxe-efi64" = ("", None).
Proof.
  unfold GetBool, GetIP, GetInt, GetString, lookupTyped, serverConfigFlags, declare.
  repeat split; by rewrite ?lookup_insert_ne by done; rewrite lookup_insert_eq.
Qed.

Lemma readableAs_flagsReadable (cmd : FlagSet) :
  serverFlagsDeclared cmd → flagsReadable cmd.
Proof.
  unfold serverFlagsDeclared, readableAs, flagsReadable.
  unfold GetBool, GetIP, GetInt, GetString, lookupTyped.
  intros ((f1 & -> & T1 & N1) & (f2 & -> & T2 & N2) & (f3 & -> & T3 & N3) &
          (f4 & -> & T4 & N4) & (f5 & -> & T5 & N5) & (f6 & -> & T6 & N6) &
          (f7 & -> & T7 & N7)).
  rewrite !decide_True by done.
  destruct (f_value f1), (f_value f2), (f_value f3) as [| [?|] | |], (f_value f4),
    (f_value f5), (f_value f6), (f_value f7); done.
Qed.

Section ParseFacts.
Context `{GoLibs}.

Lemma decodeValue_type (old v : flagValue) (s : string) :
  decodeValue old s = inl v → flagType v = flagType old ∧ v ≠ IPV None.
Proof.
  destruct old; simpl.
  - destruct (ParseBool s); by intros [= <-].
  - destruct (ParseIP s); by intros [= <-].
  - destruct (ParseInt s); by intros [= <-].
  - by intros [= <-].
Qed.

Lemma readableAs_Set (cmd cmd' : FlagSet) (n v ftype name : string) :
  FlagSet_Set cmd n v = inl cmd' →
  readableAs ftype cmd name → readableAs ftype cmd' name.
Proof.
  unfold FlagSet_Set, readableAs.
  destruct (cmd !! n) as [f0|] eqn:Hn; [|done].
  destruct (decodeValue (f_value f0) v) as [v'|] eqn:Hdec; [|done].
  intros [= <-] (f & Hf & Hty & Hnil).
  apply decodeValue_type in Hdec as [Hty' Hnil'].
  destruct (decide (n = name)) as [->|Hne].
  - eexists. split; [apply lookup_insert_eq|]. simpl. split; [|done].
    rewrite Hf in Hn. injection Hn as <-. congruence.
  - exists f. by rewrite lookup_insert_ne.
Qed.

Lemma serverFlagsDeclared_parseFlags (args : list (string * string))
    (cmd cmd' : FlagSet) :
  parseFlags cmd args = inl cmd' →
  serverFlagsDeclared cmd → serverFlagsDeclared cmd'.
Proof.
  revert cmd. induction args as [|[n v] args IH]; intros cmd; simpl.
  - by intros [= <-].
  - destruct (FlagSet_Set cmd n v) as [cmd1|] eqn:Hset; [|done].
    intros Hparse Hdecl. apply (IH cmd1 Hparse).
    destruct Hdecl as (?&?&?&?&?&?&?).
    repeat split; by eapply readableAs_Set.
Qed.

(** X6. The defaults that [serverConfigFlags] declares resolve in every
    process state: [serverFromFlags] returns the server with port 80, the
    plain logger, no debug logger and the address 0.0.0.0, reads no file
    and prints nothing; the only change is the server's map, which holds
    the entries of the registry. *)
Theorem X6_defaults_resolve_everywhere (cmd0 : FlagSet) (w : world) :
  (∀ name, name ∈ serverFlagNames → cmd0 !! name = None) →
  serverFromFlags (serverConfigFlags cmd0) w =
  (Ret (MkServer (Some (fresh (dom (w_maps w)))) (Some logWithStdFmt) None 80
                 (IP_String IPv4zero)),
   with_maps w (<[fresh (dom (w_maps w)) := map_at w (w_Ipxe w)]> (w_maps w))).
Proof.
  intros _. unfold serverFromFlags.
  destruct (serverConfigFlags_gets cmd0) as (-> & -> & -> & -> & -> & -> & ->).
  cbn [ifErr]. do 7 (rewrite bind_run; cbn [mret proc_ret]).
  change (bool_decide (IPv4zero ≠ None) && bool_decide (To4 IPv4zero = None))
    with false.
  change (bool_decide (80 ≤ 0)%Z) with false.
  change (bool_decide ("" ≠ "")) with false.
  change (bool_decide (IPv4zero ≠ None)) with true.
  cbn [when]. do 2 (rewrite bind_run; cbn [mret proc_ret]).
  rewrite bind_run. cbn [new_map].
  rewrite bind_run. cbn [read_Ipxe].
  rewrite bind_run. cbn [map_range].
  rewrite bind_run. cbn [Ipxe]. rewrite forM_assign_run.
  do 3 (rewrite bind_run; cbn [mret proc_ret]).
  unfold mret, proc_ret. f_equal.
  unfold with_maps; cbn. f_equal.
  rewrite alter_insert_eq. f_equal.
  rewrite <- registry_map_at. unfold registry, map_at. cbn.
  destruct (w_Ipxe w) as [g|]; [|done]. by apply assign_all_range.
Qed.

(** X7. Every flag that [serverFromFlags] reads is declared by
    [serverConfigFlags] under the same name and with the type it is read
    at, and the flag parser keeps it so: after any arguments that parse,
    no flag read fails, so the resolver never reports a flag error. *)
Theorem X7_declared_flags_are_readable (cmd0 cmd : FlagSet)
    (args : list (string * string)) :
  (∀ name, name ∈ serverFlagNames → cmd0 !! name = None) →
  parseFlags (serverConfigFlags cmd0) args = inl cmd →
  flagError cmd = None.
Proof.
  intros _ Hparse. apply firstSome_None_flagError, readableAs_flagsReadable.
  eapply serverFlagsDeclared_parseFlags; [exact Hparse|].
  apply serverConfigFlags_declares.
Qed.

(** X12. [serverFromFlags] never looks at the environment or at viper's
    settings: in a state that differs only there, it has the same outcome
    and leaves the same state; so running [initConfig] first changes
    nothing but viper's settings. *)
Theorem X12_resolution_ignores_environment (cmd : FlagSet) (w : world)
    (env : gmap string string) (v : viperState) :
  serverFromFlags cmd (with_env w env v)
  = ((serverFromFlags cmd w).1, with_env (serverFromFlags cmd w).2 env v) ∧
  (initConfig ;; serverFromFlags cmd) w
  = ((serverFromFlags cmd w).1,
     with_viper (serverFromFlags cmd w).2 (Viper "pixiecore" true)).
Proof.
  split; [apply serverFromFlags_env_blind|].
  rewrite bind_run.
  change (initConfig w) with (Ret (), with_env w (w_env w) (Viper "pixiecore" true)).
  cbn iota. rewrite serverFromFlags_env_blind. f_equal.
  unfold with_env, with_viper. f_equal.
  symmetry. apply (k_env _ _ (serverFromFlags_keeps cmd w)).
Qed.

(** X14. The bytes of the server's entries are not copied: for a firmware
    type without a path flag, the server's entry and the registry's are
    slices over the same backing array, so a byte stored in place through
    the registry's slice after the server was built shows in the server's
    entry. *)
Theorem X14_server_shares_backing_arrays (cmd : FlagSet) (w : world)
    (srv : Server) (w' : world) (fw : Firmware) (s : slice) (a : loc)
    (arr : bytes) (i : nat) (b : Z) :
  serverFromFlags cmd w = (Ret srv, w') →
  map_at w (w_Ipxe w) !! fw = Some s →
  flagPath cmd fw = "" →
  s_arr s = Some a →
  w_arrays w !! a = Some arr →
  (i < s_len s)%nat →
  entry_bytes (slice_store s i b w').2 (Ipxe srv) fw
  = Some (<[i := b]> (slice_bytes (w_arrays w) s)).
Proof.
  intros Hrun Hreg Hpath Harr Ha Hi.
  apply serverFromFlags_Ret_inv in Hrun
    as (_ & _ & _ & -> & mm & Ht & _ & _ & _ & Hkeep).
  pose proof (lookup_weaken _ _ _ _ Ha (t_arrays _ _ _ _ Ht)) as Ha'.
  unfold slice_store. rewrite Harr.
  rewrite (proj2 (Nat.ltb_lt _ _) Hi). cbn [snd Ipxe].
  unfold entry_bytes, map_at. cbn [w_maps w_arrays with_arrays].
  rewrite (t_maps _ _ _ _ Ht), lookup_insert_eq. cbn [default from_option id].
  rewrite (Hkeep fw Hpath), registry_map_at, Hreg. cbn [fmap option_fmap option_map].
  f_equal. unfold slice_bytes. rewrite Harr, lookup_alter_eq, Ha', Ha. cbn.
  rewrite drop_insert_ge by lia. rewrite take_insert_lt by lia.
  by replace (s_off s + i - s_off s)%nat with i by lia.
Qed.
End ParseFacts.

(** X13. The copy loop gives the server's new map exactly the entries of
    the registry, whatever the order in which [range] visits them. *)
Theorem X13_copy_is_independent_of_range_order (l : loc) (reg : gmap Z slice)
    (entries : list (Z * slice)) (w : world) :
  w_maps w !! l = Some ∅ →
  entries ≡ₚ map_to_list reg →
  forM_ entries (λ '(fwtype, bs), map_assign (Some l) fwtype bs) w
  = (Ret (), with_maps w (<[l := reg]> (w_maps w))).
Proof.
  intros Hl Hp. rewrite forM_assign_run. do 2 f_equal.
  apply map_eq. intros j. destruct (decide (l = j)) as [<-|Hne].
  - rewrite lookup_alter_eq, Hl, lookup_insert_eq. simpl.
    by rewrite (assign_all_range reg entries).
  - by rewrite lookup_alter_ne, lookup_insert_ne.
Qed.

(** ** The entry point *)

(** X9. When the legacy detector declines, [CLI] never returns to its
    caller: it exits with status 0 when the router returns no error, and
    prints the error and exits with status -1 when the router returns one;
    a router that exits or panics itself ends the run. *)
Theorem X9_modern_mode_always_exits (v1compatCLI : proc bool)
    (rootCmd_Execute : proc (option error)) (w w1 : world) :
  v1compatCLI w = (Ret false, w1) →
  (run v1compatCLI rootCmd_Execute CLI w).2.1 ≠ Ret () ∧
  (run v1compatCLI rootCmd_Execute CLI w).2 =
  match rootCmd_Execute w1 with
  | (Ret None, w2) => (Exit 0, w2)
  | (Ret (Some e), w2) =>
      (Exit (-1), with_stdout w2 (w_stdout w2 ++ [Printed ("%v" ++ newline) [e]]))
  | (Exit c, w2) => (Exit c, w2)
  | (Panic msg, w2) => (Panic msg, w2)
  end.
Proof.
  intros Hv. simpl. rewrite Hv. simpl.
  by destruct (rootCmd_Execute w1) as [[[e|]|c|msg] w2].
Qed.

(** X10. Every run of [CLI] enters the legacy detector first and exactly
    once, and the command router at most once, after it. *)
Theorem X10_legacy_detector_runs_first_and_once (v1compatCLI : proc bool)
    (rootCmd_Execute : proc (option error)) (w : world) :
  (run v1compatCLI rootCmd_Execute CLI w).1 = [Legacy] ∨
  (run v1compatCLI rootCmd_Execute CLI w).1 = [Legacy; Modern].
Proof.
  simpl. destruct (v1compatCLI w) as [[[]|c|msg] w1]; simpl; [by left| |by left..].
  destruct (rootCmd_Execute w1) as [[[e|]|c|msg] w2]; by right.
Qed.

(** X11. When the legacy detector answers that it handled the invocation,
    [CLI] returns to its caller without calling [os.Exit] and without
    printing: the state is the one the detector left. *)
Theorem X11_legacy_mode_returns (v1compatCLI : proc bool)
    (rootCmd_Execute : proc (option error)) (w w1 : world) :
  v1compatCLI w = (Ret true, w1) →
  run v1compatCLI rootCmd_Execute CLI w = ([Legacy], (Ret (), w1)).
Proof. intros Hv. simpl. by rewrite Hv. Qed.

(** ** The further properties at sample inputs *)

Lemma X2_failure_prints_first_diagnosis_witness :
  let cmd := exampleFlags [("ipxe-bios", "/boot/ipxe.pxe");
                           ("ipxe-efi32", "/boot/locked.efi");
                           ("ipxe-efi64", "/boot/missing.efi")] in
  let p := Printed ("couldn't read file %q: %s" ++ newline)
                   ["/boot/locked.efi"; "permission denied"] in
  diagnosis cmd exampleWorld = Some p ∧
  ∃ w', serverFromFlags cmd exampleWorld = (Exit 1, w') ∧
        w_stdout w' = (w_stdout exampleWorld ++ [p])%list.
Proof.
  assert (diagnosis
            (exampleFlags [("ipxe-bios", "/boot/ipxe.pxe");
                           ("ipxe-efi32", "/boot/locked.efi");
                           ("ipxe-efi64", "/boot/missing.efi")]) exampleWorld
          = Some (Printed ("couldn't read file %q: %s" ++ newline)
                          ["/boot/locked.efi"; "permission denied"])) as Hd
    by (vm_compute; reflexivity).
  split; [exact Hd|].
  exact (X2_failure_prints_first_diagnosis _ _ _ Hd).
Defined.

Lemma X4_returned_server_fields_witness :
  let cmd := exampleFlags [("listen-addr", "10.0.0.1"); ("port", "8080")] in
  ∃ srv w',
    serverFromFlags cmd exampleWorld = (Ret srv, w') ∧
    HTTPPort srv = (GetInt cmd "port").1 ∧ (0 < HTTPPort srv)%Z.
Proof.
  eassert (serverFromFlags
             (exampleFlags [("listen-addr", "10.0.0.1"); ("port", "8080")])
             exampleWorld = (Ret _, _)) as Hrun by (vm_compute; reflexivity).
  eexists _, _. split; [exact Hrun|].
  destruct (X4_returned_server_fields _ _ _ _ Hrun) as (_ & Hport & Hpos & _).
  split; [exact Hport|exact Hpos].
Defined.

Lemma X5_server_map_keys_witness :
  let cmd := exampleFlags [("ipxe-efi32", "/boot/ipxe.pxe")] in
  ∃ srv w',
    serverFromFlags cmd exampleWorld = (Ret srv, w') ∧
    (is_Some (map_at w' (Ipxe srv) !! FirmwareEFI32) ↔
     flagPath cmd FirmwareEFI32 ≠ "" ∨
     is_Some (map_at exampleWorld (w_Ipxe exampleWorld) !! FirmwareEFI32)).
Proof.
  eassert (serverFromFlags (exampleFlags [("ipxe-efi32", "/boot/ipxe.pxe")])
             exampleWorld = (Ret _, _)) as Hrun by (vm_compute; reflexivity).
  eexists _, _. split; [exact Hrun|].
  exact (X5_server_map_keys _ _ _ _ FirmwareEFI32 Hrun).
Defined.

Lemma X6_defaults_resolve_everywhere_witness :
  (∀ name, name ∈ serverFlagNames → (∅ : FlagSet) !! name = None) ∧
  (serverFromFlags (serverConfigFlags ∅) exampleWorld).1
  = Ret (MkServer (Some 2%positive) (Some logWithStdFmt) None 80 "0.0.0.0").
Proof.
  assert (∀ name, name ∈ serverFlagNames → (∅ : FlagSet) !! name = None) as Hfresh
    by (intros name _; apply lookup_empty).
  split; [exact Hfresh|].
  by rewrite (X6_defaults_resolve_everywhere ∅ exampleWorld Hfresh).
Defined.

Lemma X7_declared_flags_are_readable_witness :
  let args := [("port", "9000"); ("debug", "true"); ("listen-addr", "::1")] in
  (∀ name, name ∈ serverFlagNames → (∅ : FlagSet) !! name = None) ∧
  parseFlags (serverConfigFlags ∅) args = inl (exampleFlags args) ∧
  flagError (exampleFlags args) = None.
Proof.
  assert (∀ name, name ∈ serverFlagNames → (∅ : FlagSet) !! name = None) as Hfresh
    by (intros name _; apply lookup_empty).
  assert (parseFlags (serverConfigFlags ∅)
            [("port", "9000"); ("debug", "true"); ("listen-addr", "::1")]
          = inl (exampleFlags
                   [("port", "9000"); ("debug", "true"); ("listen-addr", "::1")]))
    as Hparse by (vm_compute; reflexivity).
  split; [exact Hfresh|]. split; [exact Hparse|].
  exact (X7_declared_flags_are_readable ∅ _ _ Hfresh Hparse).
Defined.

Lemma X9_modern_mode_always_exits_witness :
  let v1compatCLI : proc bool := mret false in
  let rootCmd_Execute : proc (option error) := mret (Some "unknown command") in
  v1compatCLI exampleWorld = (Ret false, exampleWorld) ∧
  (run v1compatCLI rootCmd_Execute CLI exampleWorld).2.1 = Exit (-1).
Proof.
  assert ((mret false : proc bool) exampleWorld = (Ret false, exampleWorld))
    as Hv by reflexivity.
  split; [exact Hv|].
  destruct (X9_modern_mode_always_exits (mret false)
              (mret (Some "unknown command")) exampleWorld exampleWorld Hv)
    as [_ Hrun].
  exact (f_equal fst Hrun).
Defined.

Lemma X11_legacy_mode_returns_witness :
  let v1compatCLI : proc bool := mret true in
  let rootCmd_Execute : proc (option error) := mret None in
  v1compatCLI exampleWorld = (Ret true, exampleWorld) ∧
  run v1compatCLI rootCmd_Execute CLI exampleWorld
  = ([Legacy], (Ret (), exampleWorld)).
Proof.
  assert ((mret true : proc bool) exampleWorld = (Ret true, exampleWorld))
    as Hv by reflexivity.
  split; [exact Hv|].
  exact (X11_legacy_mode_returns (mret true) (mret None) exampleWorld exampleWorld Hv).
Defined.

Lemma X13_copy_is_independent_of_range_order_witness :
  let reg : gmap Z slice :=
    {[ FirmwareX86PC := Slice (Some 5%positive) 0 2;
       FirmwareEFI64 := Slice (Some 5%positive) 2 3 ]} in
  let w := with_maps exampleWorld (<[2%positive := ∅]> (w_maps exampleWorld)) in
  let entries := reverse (map_to_list reg) in
  w_maps w !! 2%positive = Some ∅ ∧
  entries ≡ₚ map_to_list reg ∧
  forM_ entries (λ '(fwtype, bs), map_assign (Some 2%positive) fwtype bs) w
  = (Ret (), with_maps w (<[2%positive := reg]> (w_maps w))).
Proof.
  intros reg w entries.
  assert (w_maps w !! 2%positive = Some ∅) as Hl by reflexivity.
  assert (entries ≡ₚ map_to_list reg) as Hp by apply reverse_Permutation.
  split; [exact Hl|]. split; [exact Hp|].
  exact (X13_copy_is_independent_of_range_order 2%positive reg entries w Hl Hp).
Defined.

Lemma X14_server_shares_backing_arrays_witness :
  let s := Slice (Some 5%positive) 2 3 in
  ∃ srv w',
    serverFromFlags (exampleFlags []) exampleWorld = (Ret srv, w') ∧
    map_at exampleWorld (w_Ipxe exampleWorld) !! FirmwareEFI64 = Some s ∧
    flagPath (exampleFlags []) FirmwareEFI64 = "" ∧
    w_arrays exampleWorld !! 5%positive = Some [77; 90; 144; 0; 3] ∧
    (1 < s_len s)%nat ∧
    entry_bytes (slice_store s 1 255 w').2 (Ipxe srv) FirmwareEFI64
    = Some [144; 255; 3].
Proof.
  eassert (serverFromFlags (exampleFlags []) exampleWorld = (Ret _, _)) as Hrun
    by (vm_compute; reflexivity).
  assert (1 < s_len (Slice (Some 5%positive) 2 3))%nat as Hi by (simpl; lia).
  eexists _, _. split; [exact Hrun|].
  split; [reflexivity|]. split; [reflexivity|]. split; [reflexivity|].
  split; [exact Hi|].
  exact (X14_server_shares_backing_arrays _ _ _ _ FirmwareEFI64
           (Slice (Some 5%positive) 2 3) 5%positive [77; 90; 144; 0; 3] 1 255
           Hrun eq_refl eq_refl eq_refl eq_refl Hi).
Defined.
